(** * E-commerce backend: cart, checkout and auth handlers of [main.py]

    A shallow embedding of the request handlers of [src/main.py] and of the
    Pydantic schemas of [src/schemas.py].  Handlers are functions in a
    state-and-exception monad over the document store; Python floats are
    binary64 primitive floats; Python ints are [Z]. *)

From Stdlib Require Import ZArith NArith List String Ascii Bool Lia.
From Stdlib.Strings Require Import Byte.
From Stdlib Require Import PrimFloat FloatOps SpecFloat.
Import ListNotations.

#[local] Set Warnings "-inexact-float".

Local Open Scope string_scope.
Local Open Scope list_scope.
Local Open Scope Z_scope.

(** Python [str]. *)
Definition str := string.

(* ------------------------------------------------------------------ *)
(** ** Python built-ins used by the handlers *)

Module Py.

(** [float(n)] for an int [n], as done implicitly by [float * int]:
    the nearest binary64 value, ties to even.  (CPython raises
    OverflowError when [n] is beyond the double range; integers kept in
    the store are 64-bit BSON integers, far below it.) *)
Definition float_of_int (n : Z) : float :=
  SF2Prim (binary_normalize prec emax n 0 false).

(** The integer nearest to [a / b] for [0 < b], ties to even. *)
Definition round_half_even_div (a b : Z) : Z :=
  let q := a / b in
  let r := a mod b in
  match 2 * r ?= b with
  | Lt => q
  | Gt => q + 1
  | Eq => if Z.even q then q else q + 1
  end.

(** [round(x, 2)] on a float: CPython rounds the exact binary value of
    [x] to two decimals (ties to even) and returns the double nearest to
    that decimal; nan, infinities and integral values round to
    themselves, and the sign of a zero result is kept. *)
Definition round2 (x : float) : float :=
  match Prim2SF x with
  | S754_finite s m e =>
      if 0 <=? e then x
      else
        match round_half_even_div (Zpos m * 100) (2 ^ (- e)) with
        | Zpos n =>
            SF2Prim (SFdiv prec emax (S754_finite s n 0) (S754_finite false 100 0))
        | _ => SF2Prim (S754_zero s)
        end
  | _ => x
  end.

(** One lower-case hexadecimal digit, ["0123456789abcdef"[n]]. *)
Definition hexdigit (n : N) : ascii :=
  match n with
  | 0 => "0" | 1 => "1" | 2 => "2" | 3 => "3" | 4 => "4" | 5 => "5"
  | 6 => "6" | 7 => "7" | 8 => "8" | 9 => "9" | 10 => "a" | 11 => "b"
  | 12 => "c" | 13 => "d" | 14 => "e" | _ => "f"
  end%N%char.

(** [bytes.hex()]: two lower-case digits per byte. *)
Fixpoint bytes_hex (b : list byte) : str :=
  match b with
  | [] => EmptyString
  | x :: rest =>
      let n := Byte.to_N x in
      String (hexdigit (n / 16)) (String (hexdigit (n mod 16)) (bytes_hex rest))
  end.

(** [c.upper()] on one ASCII character. *)
Definition upper_ascii (c : ascii) : ascii :=
  let n := N_of_ascii c in
  if ((97 <=? n) && (n <=? 122))%N then ascii_of_N (n - 32) else c.

(** [s.upper()] on an ASCII string. *)
Fixpoint upper (s : str) : str :=
  match s with
  | EmptyString => EmptyString
  | String c rest => String (upper_ascii c) (upper rest)
  end.

(** A character among [0-9A-F]. *)
Definition is_upper_hexdigit (c : ascii) : bool :=
  let n := N_of_ascii c in
  (((48 <=? n) && (n <=? 57)) || ((65 <=? n) && (n <=? 70)))%N.

End Py.

(** A JSON number of a response body: Python keeps [0] and [0.0] apart. *)
Inductive number :=
| Int (n : Z)
| Float (x : float).

(* ------------------------------------------------------------------ *)
(** ** Exceptions *)

(** What a handler can raise: FastAPI's [HTTPException], or any other
    exception, which is not caught and is answered with status 500. *)
Inductive error :=
| HTTPException (status_code : Z) (detail : str)
| Uncaught (exception : str).

Definition status_code_of (e : error) : Z :=
  match e with
  | HTTPException c _ => c
  | Uncaught _ => 500
  end.

Inductive result (A : Type) :=
| Ok (a : A)
| Raise (e : error).
Arguments Ok {A} a.
Arguments Raise {A} e.

(* ------------------------------------------------------------------ *)
(** ** Schemas ([schemas.py]) and request and response bodies ([main.py]) *)

Module User.
Record t := {
  name : str;
  email : str;
  password_hash : str;
  is_active : bool;
  role : str }.
End User.

Module Product.
Record t := {
  title : str;
  description : option str;
  price : float;
  image_url : option str;
  category : option str;
  in_stock : bool }.
End Product.

Module CartItem.
Record t := {
  product_id : str;
  quantity : Z }.
End CartItem.

Module Cart.
Record t := {
  user_id : str;
  items : list CartItem.t }.
End Cart.

Module OrderItem.
Record t := {
  product_id : str;
  title : str;
  price : float;
  quantity : Z;
  subtotal : float }.
End OrderItem.

Module Order.
Record t := {
  user_id : str;
  items : list OrderItem.t;
  amount : float;
  currency : str;
  status : str;
  payment_ref : option str }.
End Order.

Module SignUpRequest.
Record t := {
  name : str;
  email : str;
  password : str }.
End SignUpRequest.

Module SignInRequest.
Record t := {
  email : str;
  password : str }.
End SignInRequest.

Module AuthResponse.
Record t := {
  user_id : str;
  name : str;
  email : str;
  token : str }.
End AuthResponse.

Module AddToCartRequest.
Record t := {
  user_id : str;
  product_id : str;
  quantity : Z }.
End AddToCartRequest.

Module CheckoutRequest.
Record t := {
  user_id : str }.
End CheckoutRequest.

(** One element of the ["items"] list that [get_cart] returns. *)
Module CartLine.
Record t := {
  product_id : str;
  title : str;
  price : float;
  quantity : Z;
  image_url : option str;
  subtotal : float }.
End CartLine.

(** The dict that [get_cart] returns. *)
Module CartView.
Record t := {
  items : list CartLine.t;
  total : number }.
End CartView.

(** The dict that [checkout] returns. *)
Module CheckoutResponse.
Record t := {
  order_id : str;
  amount : float;
  currency : str;
  payment_ref : str }.
End CheckoutResponse.

(** Pydantic validation of [CartItem]: [quantity] has [ge=1]. *)
Definition CartItemSchema (product_id : str) (quantity : Z) : result CartItem.t :=
  if 1 <=? quantity
  then Ok {| CartItem.product_id := product_id; CartItem.quantity := quantity |}
  else Raise (Uncaught "ValidationError").

(** Pydantic validation of [Cart(user_id=..., items=[{...}, ...])]: every
    item dict is validated as a [CartItem]. *)
Fixpoint CartSchema_items (items : list (str * Z)) : result (list CartItem.t) :=
  match items with
  | [] => Ok []
  | (p, q) :: rest =>
      match CartItemSchema p q with
      | Raise e => Raise e
      | Ok it =>
          match CartSchema_items rest with
          | Raise e => Raise e
          | Ok its => Ok (it :: its)
          end
      end
  end.

Definition CartSchema (user_id : str) (items : list (str * Z)) : result Cart.t :=
  match CartSchema_items items with
  | Raise e => Raise e
  | Ok its => Ok {| Cart.user_id := user_id; Cart.items := its |}
  end.

(* ------------------------------------------------------------------ *)
(** ** Document store *)

(** [bson.ObjectId] of the MongoDB driver: the opaque key of a
    document.  [ObjectId_of_str s] is [ObjectId(s)], [None] when the driver
    raises [InvalidId]; [ObjectId_to_str] is [str(oid)]; [ObjectId_new ids]
    is the key the driver gives to a document inserted into a collection
    whose documents have the keys [ids]. *)
Class ObjectIdT := {
  ObjectId : Type;
  ObjectId_eqb : ObjectId -> ObjectId -> bool;
  ObjectId_of_str : str -> option ObjectId;
  ObjectId_to_str : ObjectId -> str;
  ObjectId_new : list ObjectId -> ObjectId }.

(** What the store guarantees about keys: equality is decided by
    [ObjectId_eqb], and an inserted document gets a key that no document of
    its collection has (the [_id] index is unique). *)
Class ObjectIdLaws (O : ObjectIdT) : Prop := {
  ObjectId_eqb_eq : forall a b : ObjectId, ObjectId_eqb a b = true <-> a = b;
  ObjectId_new_fresh : forall used : list ObjectId, ~ In (ObjectId_new used) used }.

(** A stored document: its key [_id] and the fields of its schema. *)
Record Document (K A : Type) := {
  _id : K;
  fields : A }.
Arguments _id {K A} d.
Arguments fields {K A} d.
Arguments Build_Document {K A} _id fields.

(** Modelled from the spec: [db] of the missing module [database], the
    handle on the document store, "a key-value collection store with
    find/insert/update operations", with one collection per entity:
    user, product, cart, order.  A collection is the sequence of its
    documents in insertion order. *)
Record Store (K : Type) := {
  user_docs : list (Document K User.t);
  product_docs : list (Document K Product.t);
  cart_docs : list (Document K Cart.t);
  order_docs : list (Document K Order.t) }.
Arguments user_docs {K} s.
Arguments product_docs {K} s.
Arguments cart_docs {K} s.
Arguments order_docs {K} s.
Arguments Build_Store {K} user_docs product_docs cart_docs order_docs.

(** The documents and the store of the handlers: keys are [ObjectId]s. *)
Abbreviation Doc := (Document ObjectId).
Abbreviation Database := (Store ObjectId).

Module OkResponse.
Record t := {
  ok : bool }.
End OkResponse.

(** The dict that [serialize] returns: the fields of the document, and
    its key as the string ["id"] in place of ["_id"]. *)
Module Serialized.
Record t (A : Type) := {
  id : str;
  doc : A }.
Arguments id {A} t.
Arguments doc {A} t.
Arguments Build_t {A} id doc.
End Serialized.

(** The dict that [create_product] returns. *)
Module IdResponse.
Record t := {
  id : str }.
End IdResponse.

Section Backend.

Context {O : ObjectIdT}.

(** [hashlib.sha256(s.encode()).hexdigest()] as a function of [s]. *)
Variable sha256_hexdigest : str -> str.

(** The process environment: [os.environ.get]. *)
Variable environ : str -> option str.

(** A named collection [db[name]]. *)
Record Collection (A : Type) := {
  docs : Database -> list (Doc A);
  set_docs : list (Doc A) -> Database -> Database }.
Arguments docs {A} c db.
Arguments set_docs {A} c l db.

Definition db_user : Collection User.t :=
  {| docs := user_docs;
     set_docs := fun l db =>
       {| user_docs := l; product_docs := product_docs db;
          cart_docs := cart_docs db; order_docs := order_docs db |} |}.

Definition db_product : Collection Product.t :=
  {| docs := product_docs;
     set_docs := fun l db =>
       {| user_docs := user_docs db; product_docs := l;
          cart_docs := cart_docs db; order_docs := order_docs db |} |}.

Definition db_cart : Collection Cart.t :=
  {| docs := cart_docs;
     set_docs := fun l db =>
       {| user_docs := user_docs db; product_docs := product_docs db;
          cart_docs := l; order_docs := order_docs db |} |}.

Definition db_order : Collection Order.t :=
  {| docs := order_docs;
     set_docs := fun l db =>
       {| user_docs := user_docs db; product_docs := product_docs db;
          cart_docs := cart_docs db; order_docs := l |} |}.

(** *** Handlers run in a state-and-exception monad over the store *)

Definition M (A : Type) : Type := Database -> result A * Database.

Definition ret {A} (a : A) : M A := fun db => (Ok a, db).

Definition raise {A} (e : error) : M A := fun db => (Raise e, db).

Definition bind {A B} (c : M A) (k : A -> M B) : M B :=
  fun db =>
    match c db with
    | (Ok a, db') => k a db'
    | (Raise e, db') => (Raise e, db')
    end.

Definition lift {A} (r : result A) : M A := fun db => (r, db).

Notation "x <- c ;; k" := (bind c (fun x => k))
  (at level 61, c at next level, right associativity).

(** *** Driver operations on a collection *)

(** The operations below are the effect of a write that the driver could
    encode; the encoding of an integer, which can fail, is [bson_items],
    run by the handler before the write. *)

(** [collection.find_one(filter)]: the first document that matches. *)
Definition find_one {A} (c : Collection A) (filter : Doc A -> bool)
  : M (option (Doc A)) :=
  fun db => (Ok (List.find filter (docs c db)), db).

(** The first document that matches is replaced, the others are kept. *)
Fixpoint update_first {A} (filter : Doc A -> bool) (set : A -> A)
  (l : list (Doc A)) : list (Doc A) :=
  match l with
  | [] => []
  | d :: rest =>
      if filter d
      then {| _id := _id d; fields := set (fields d) |} :: rest
      else d :: update_first filter set rest
  end.

(** [collection.update_one(filter, {"$set": ...})]. *)
Definition update_one {A} (c : Collection A) (filter : Doc A -> bool)
  (set : A -> A) : M unit :=
  fun db => (Ok tt, set_docs c (update_first filter set (docs c db)) db).

(** [collection.insert_one(data)]: the document is added after the others
    under a new key, which is returned. *)
Definition insert_one {A} (c : Collection A) (data : A) : M ObjectId :=
  fun db =>
    let i := ObjectId_new (map _id (docs c db)) in
    (Ok i, set_docs c (docs c db ++ [{| _id := i; fields := data |}]) db).

(** Modelled from the spec: [create_document] of the missing module
    [database], the "create" operation of the Document Store Adapter: it
    inserts the fields of the model into the named collection and returns
    the new identifier, "rendered as a string". *)
Definition create_document {A} (collection : Collection A) (data : A) : M str :=
  i <- insert_one collection data ;;
  ret (ObjectId_to_str i).

(** *** Utilities *)

Definition oid (id_str : str) : M ObjectId :=
  match ObjectId_of_str id_str with
  | Some o => ret o
  | None => raise (HTTPException 400 "Invalid id")
  end.

(** [os.getenv(key, default)]. *)
Definition getenv (key default : str) : str :=
  match environ key with
  | Some v => v
  | None => default
  end.

(** *** Auth endpoints *)

Definition hash_password (pw : str) : str :=
  sha256_hexdigest (pw ++ getenv "AUTH_SALT" "flames_saas")%string.

Definition signup (payload : SignUpRequest.t) : M AuthResponse.t :=
  existing <- find_one db_user
    (fun d => String.eqb (User.email (fields d)) (SignUpRequest.email payload)) ;;
  match existing with
  | Some _ => raise (HTTPException 400 "Email already registered")
  | None =>
      let user :=
        {| User.name := SignUpRequest.name payload;
           User.email := SignUpRequest.email payload;
           User.password_hash := hash_password (SignUpRequest.password payload);
           User.is_active := true;
           User.role := "user" |} in
      user_id <- create_document db_user user ;;
      let token :=
        hash_password
          (SignUpRequest.email payload ++ ":" ++ SignUpRequest.password payload)%string in
      ret {| AuthResponse.user_id := user_id;
             AuthResponse.name := SignUpRequest.name payload;
             AuthResponse.email := SignUpRequest.email payload;
             AuthResponse.token := token |}
  end.

Definition signin (payload : SignInRequest.t) : M AuthResponse.t :=
  user <- find_one db_user
    (fun d => String.eqb (User.email (fields d)) (SignInRequest.email payload)) ;;
  match user with
  | None => raise (HTTPException 401 "Invalid credentials")
  | Some user =>
      if negb (String.eqb (User.password_hash (fields user))
                 (hash_password (SignInRequest.password payload)))
      then raise (HTTPException 401 "Invalid credentials")
      else
        let token :=
          hash_password
            (SignInRequest.email payload ++ ":" ++ SignInRequest.password payload)%string in
        ret {| AuthResponse.user_id := ObjectId_to_str (_id user);
               AuthResponse.name := User.name (fields user);
               AuthResponse.email := User.email (fields user);
               AuthResponse.token := token |}
  end.

(** *** Cart *)

(** The loop of [add_to_cart] over the items of the cart that was read:
    every item with the product id of the request gets the requested
    quantity added; [updated] tells whether there was one. *)
Fixpoint add_to_cart_loop (items : list CartItem.t)
  (payload : AddToCartRequest.t) (updated : bool) : list CartItem.t * bool :=
  match items with
  | [] => ([], updated)
  | item :: rest =>
      if String.eqb (CartItem.product_id item) (AddToCartRequest.product_id payload)
      then
        let '(rest', updated') := add_to_cart_loop rest payload true in
        ({| CartItem.product_id := CartItem.product_id item;
            CartItem.quantity :=
              CartItem.quantity item + AddToCartRequest.quantity payload |}
           :: rest', updated')
      else
        let '(rest', updated') := add_to_cart_loop rest payload updated in
        (item :: rest', updated')
  end.

(** An int that BSON can hold: the store keeps integers on 8 bytes. *)
Definition int64 (n : Z) : bool := (- 2 ^ 63 <=? n) && (n <? 2 ^ 63).

Definition items_int64 (items : list CartItem.t) : bool :=
  forallb (fun item => int64 (CartItem.quantity item)) items.

(** The driver encodes the document of a write as BSON before it sends
    it: for an int that does not fit 8 bytes it raises OverflowError, and
    nothing is written.  The quantities of a cart are the only new integers
    that the handlers write (an order repeats quantities read from the
    store). *)
Definition bson_items (items : list CartItem.t) : M unit :=
  if items_int64 items then ret tt else raise (Uncaught "OverflowError").

Definition add_to_cart (payload : AddToCartRequest.t) : M OkResponse.t :=
  user_oid <- oid (AddToCartRequest.user_id payload) ;;
  product_oid <- oid (AddToCartRequest.product_id payload) ;;
  product <- find_one db_product (fun d => ObjectId_eqb (_id d) product_oid) ;;
  match product with
  | None => raise (HTTPException 404 "Product not found")
  | Some _ =>
      cart <- find_one db_cart
        (fun d => String.eqb (Cart.user_id (fields d))
                    (AddToCartRequest.user_id payload)) ;;
      match cart with
      | None =>
          cart_doc <- lift (CartSchema (AddToCartRequest.user_id payload)
                              [(AddToCartRequest.product_id payload,
                                AddToCartRequest.quantity payload)]) ;;
          encoded <- bson_items (Cart.items cart_doc) ;;
          new_id <- create_document db_cart cart_doc ;;
          ret {| OkResponse.ok := true |}
      | Some cart =>
          let '(items, updated) :=
            add_to_cart_loop (Cart.items (fields cart)) payload false in
          let items :=
            if negb updated
            then items ++
                 [{| CartItem.product_id := AddToCartRequest.product_id payload;
                     CartItem.quantity := AddToCartRequest.quantity payload |}]
            else items in
          encoded <- bson_items items ;;
          done <- update_one db_cart
            (fun d => ObjectId_eqb (_id d) (_id cart))
            (fun c => {| Cart.user_id := Cart.user_id c; Cart.items := items |}) ;;
          ret {| OkResponse.ok := true |}
      end
  end.

(** The loop of [get_cart]: [items] and [total] are the accumulators. *)
Fixpoint get_cart_loop (cart_items : list CartItem.t)
  (items : list CartLine.t) (total : float) : M (list CartLine.t * float) :=
  match cart_items with
  | [] => ret (items, total)
  | item :: rest =>
      product_oid <- oid (CartItem.product_id item) ;;
      prod <- find_one db_product (fun d => ObjectId_eqb (_id d) product_oid) ;;
      match prod with
      | Some prod =>
          let subtotal :=
            PrimFloat.mul (Product.price (fields prod))
              (Py.float_of_int (CartItem.quantity item)) in
          get_cart_loop rest
            (items ++
             [{| CartLine.product_id := CartItem.product_id item;
                 CartLine.title := Product.title (fields prod);
                 CartLine.price := Product.price (fields prod);
                 CartLine.quantity := CartItem.quantity item;
                 CartLine.image_url := Product.image_url (fields prod);
                 CartLine.subtotal := subtotal |}])
            (PrimFloat.add total subtotal)
      | None => get_cart_loop rest items total
      end
  end.

Definition get_cart (user_id : str) : M CartView.t :=
  cart <- find_one db_cart
    (fun d => String.eqb (Cart.user_id (fields d)) user_id) ;;
  match cart with
  | None => ret {| CartView.items := []; CartView.total := Int 0 |}
  | Some cart =>
      r <- get_cart_loop (Cart.items (fields cart)) [] PrimFloat.zero ;;
      let '(items, total) := r in
      ret {| CartView.items := items;
             CartView.total := Float (Py.round2 total) |}
  end.

(** *** Checkout (mock payment provider) *)

(** The loop of [checkout] that builds the order items; [items] and
    [amount] are the accumulators. *)
Fixpoint checkout_loop (cart_items : list CartItem.t)
  (items : list OrderItem.t) (amount : float) : M (list OrderItem.t * float) :=
  match cart_items with
  | [] => ret (items, amount)
  | item :: rest =>
      product_oid <- oid (CartItem.product_id item) ;;
      prod <- find_one db_product (fun d => ObjectId_eqb (_id d) product_oid) ;;
      match prod with
      | None => raise (HTTPException 400 "Invalid product in cart")
      | Some prod =>
          let subtotal :=
            PrimFloat.mul (Product.price (fields prod))
              (Py.float_of_int (CartItem.quantity item)) in
          checkout_loop rest
            (items ++
             [{| OrderItem.product_id := ObjectId_to_str (_id prod);
                 OrderItem.title := Product.title (fields prod);
                 OrderItem.price := Product.price (fields prod);
                 OrderItem.quantity := CartItem.quantity item;
                 OrderItem.subtotal := subtotal |}])
            (PrimFloat.add amount subtotal)
      end
  end.

(** The four bytes that [os.urandom(4)] returned. *)
Definition urandom4 : Type := byte * byte * byte * byte.

Definition bytes_of_urandom4 (r : urandom4) : list byte :=
  let '(b0, b1, b2, b3) := r in [b0; b1; b2; b3].

(** [checkout], given the outcome [random] of its call of [os.urandom(4)]. *)
Definition checkout (random : urandom4) (payload : CheckoutRequest.t)
  : M CheckoutResponse.t :=
  cart <- find_one db_cart
    (fun d => String.eqb (Cart.user_id (fields d))
                (CheckoutRequest.user_id payload)) ;;
  match cart with
  | None => raise (HTTPException 400 "Cart is empty")
  | Some cart =>
      match Cart.items (fields cart) with
      | [] => raise (HTTPException 400 "Cart is empty")
      | _ :: _ =>
          r <- checkout_loop (Cart.items (fields cart)) [] PrimFloat.zero ;;
          let '(items, amount) := r in
          let amount := Py.round2 amount in
          let payment_ref :=
            ("PAY-" ++ Py.upper (Py.bytes_hex (bytes_of_urandom4 random)))%string in
          let order :=
            {| Order.user_id := CheckoutRequest.user_id payload;
               Order.items := items;
               Order.amount := amount;
               Order.currency := "usd";
               Order.status := "paid";
               Order.payment_ref := Some payment_ref |} in
          order_id <- create_document db_order order ;;
          done <- update_one db_cart
            (fun d => String.eqb (Cart.user_id (fields d))
                        (CheckoutRequest.user_id payload))
            (fun c => {| Cart.user_id := Cart.user_id c; Cart.items := [] |}) ;;
          ret {| CheckoutResponse.order_id := order_id;
                 CheckoutResponse.amount := amount;
                 CheckoutResponse.currency := "usd";
                 CheckoutResponse.payment_ref := payment_ref |}
      end
  end.

(** *** Products *)

Definition serialize {A} (doc : option (Doc A)) : option (Serialized.t A) :=
  match doc with
  | None => None
  | Some doc =>
      Some {| Serialized.id := ObjectId_to_str (_id doc);
              Serialized.doc := fields doc |}
  end.

Definition create_product (product : Product.t) : M IdResponse.t :=
  pid <- create_document db_product product ;;
  ret {| IdResponse.id := pid |}.

(** [collection.find().limit(n)]: the first [n] documents. *)
Definition find_limit {A} (c : Collection A) (n : nat) : M (list (Doc A)) :=
  fun db => (Ok (firstn n (docs c db)), db).

Definition list_products : M (list (option (Serialized.t Product.t))) :=
  found <- find_limit db_product 100 ;;
  ret (map (fun p => serialize (Some p)) found).

End Backend.

Arguments docs {O A} c db.
Arguments set_docs {O A} c l db.

(* ------------------------------------------------------------------ *)
(** ** Vocabulary of the properties *)

Section Vocabulary.

Context {O : ObjectIdT}.

(** The Product that a product id resolves to in the catalog, if any. *)
Definition resolve (db : Database) (product_id : str) : option (Doc Product.t) :=
  match ObjectId_of_str product_id with
  | Some o => List.find (fun d => ObjectId_eqb (_id d) o) (product_docs db)
  | None => None
  end.

(** The Cart document of a user, if any. *)
Definition cart_of (db : Database) (user_id : str) : option (Doc Cart.t) :=
  List.find (fun d => String.eqb (Cart.user_id (fields d)) user_id) (cart_docs db).

(** The store after a sequence of [add_to_cart] calls, whatever each call
    answered. *)
Definition run_add_to_cart (calls : list AddToCartRequest.t) (db : Database)
  : Database :=
  fold_left (fun db call => snd (add_to_cart call db)) calls db.


(** The sum of floats, added in order from [0.0]. *)
Definition fsum (l : list float) : float :=
  fold_left PrimFloat.add l PrimFloat.zero.

(** Current product price times quantity of a cart item, when its product
    resolves. *)
Definition line_subtotal (db : Database) (item : CartItem.t) : option float :=
  match resolve db (CartItem.product_id item) with
  | Some prod =>
      Some (PrimFloat.mul (Product.price (fields prod))
              (Py.float_of_int (CartItem.quantity item)))
  | None => None
  end.

(** The line of the cart view for a cart item and its current product. *)
Definition cart_line (item : CartItem.t) (prod : Doc Product.t) : CartLine.t :=
  {| CartLine.product_id := CartItem.product_id item;
     CartLine.title := Product.title (fields prod);
     CartLine.price := Product.price (fields prod);
     CartLine.quantity := CartItem.quantity item;
     CartLine.image_url := Product.image_url (fields prod);
     CartLine.subtotal :=
       PrimFloat.mul (Product.price (fields prod))
         (Py.float_of_int (CartItem.quantity item)) |}.

(** One line per cart item whose product resolves, in cart order. *)
Fixpoint cart_lines (db : Database) (cart_items : list CartItem.t)
  : list CartLine.t :=
  match cart_items with
  | [] => []
  | item :: rest =>
      match resolve db (CartItem.product_id item) with
      | Some prod => cart_line item prod :: cart_lines db rest
      | None => cart_lines db rest
      end
  end.

(** The order that [checkout] stores, from the items and the unrounded
    amount that its loop returned. *)
Definition order_of (random : urandom4) (payload : CheckoutRequest.t)
  (items : list OrderItem.t) (amount : float) : Order.t :=
  {| Order.user_id := CheckoutRequest.user_id payload;
     Order.items := items;
     Order.amount := Py.round2 amount;
     Order.currency := "usd";
     Order.status := "paid";
     Order.payment_ref :=
       Some ("PAY-" ++ Py.upper (Py.bytes_hex (bytes_of_urandom4 random)))%string |}.

(** The cart of the user is absent or has no item. *)
Definition cart_absent_or_empty (db : Database) (user_id : str) : Prop :=
  match cart_of db user_id with
  | None => True
  | Some cart => Cart.items (fields cart) = []
  end.

(** The store is the one that a successful checkout of [payload] left. *)
Definition just_checked_out (db : Database) (payload : CheckoutRequest.t) : Prop :=
  exists random0 db0 r0, checkout random0 payload db0 = (Ok r0, db).

(** Price times quantity of a line of the cart view. *)
Definition line_amount (line : CartLine.t) : float :=
  PrimFloat.mul (CartLine.price line) (Py.float_of_int (CartLine.quantity line)).

(** The product ids of the items are well-formed ids, as those that
    [add_to_cart] lets through. *)
Definition wellformed_ids (items : list CartItem.t) : Prop :=
  Forall (fun item => ObjectId_of_str (CartItem.product_id item) <> None) items.

(** The items of the cart of a user, none without a cart. *)
Definition items_of (db : Database) (user_id : str) : list CartItem.t :=
  match cart_of db user_id with
  | Some cart => Cart.items (fields cart)
  | None => []
  end.

(** What the loop of [add_to_cart] does to one item. *)
Definition add_quantity (product_id : str) (quantity : Z) (item : CartItem.t)
  : CartItem.t :=
  if String.eqb (CartItem.product_id item) product_id
  then {| CartItem.product_id := CartItem.product_id item;
          CartItem.quantity := CartItem.quantity item + quantity |}
  else item.

(** The items that [add_to_cart] writes back to a cart that had [items]. *)
Definition add_item (items : list CartItem.t) (payload : AddToCartRequest.t)
  : list CartItem.t :=
  let '(items', updated) := add_to_cart_loop items payload false in
  if negb updated
  then items' ++
       [{| CartItem.product_id := AddToCartRequest.product_id payload;
           CartItem.quantity := AddToCartRequest.quantity payload |}]
  else items'.




(** Every item of every stored cart satisfies [P]. *)
Definition carts_all (P : CartItem.t -> Prop) (db : Database) : Prop :=
  Forall (fun cart => Forall P (Cart.items (fields cart))) (cart_docs db).

(** The stores that the handlers build from a store without carts,
    whatever happens meanwhile to the users and to the catalog. *)
Inductive reachable : Database -> Prop :=
| reachable_no_cart db :
    cart_docs db = [] -> reachable db
| reachable_catalog db users products :
    reachable db ->
    reachable {| user_docs := users; product_docs := products;
                 cart_docs := cart_docs db; order_docs := order_docs db |}
| reachable_add_to_cart db payload :
    reachable db -> reachable (snd (add_to_cart payload db))
| reachable_checkout db random payload :
    reachable db -> reachable (snd (checkout random payload db)).

(** Every document of the cart collection has its own key. *)
Definition cart_ids_unique (db : Database) : Prop :=
  NoDup (map _id (cart_docs db)).

(** The credentials and the outcome of an auth call, signup or signin. *)
Inductive auth_call :=
| Signup (payload : SignUpRequest.t)
| Signin (payload : SignInRequest.t).

Definition credentials (c : auth_call) : str * str :=
  match c with
  | Signup p => (SignUpRequest.email p, SignUpRequest.password p)
  | Signin p => (SignInRequest.email p, SignInRequest.password p)
  end.

Definition run_auth (sha256_hexdigest : str -> str) (environ : str -> option str)
  (c : auth_call) : M AuthResponse.t :=
  match c with
  | Signup p => signup sha256_hexdigest environ p
  | Signin p => signin sha256_hexdigest environ p
  end.

(** The user document registered under an email, if any. *)
Definition user_of (db : Database) (email : str) : option (Doc User.t) :=
  List.find (fun d => String.eqb (User.email (fields d)) email) (user_docs db).

(** No two users have the same email. *)
Definition emails_unique (db : Database) : Prop :=
  NoDup (map (fun d => User.email (fields d)) (user_docs db)).

(** No two carts have the same user id. *)
Definition one_cart_per_user (db : Database) : Prop :=
  NoDup (map (fun d => Cart.user_id (fields d)) (cart_docs db)).

(** Every document of the order collection has its own key. *)
Definition order_ids_unique (db : Database) : Prop :=
  NoDup (map _id (order_docs db)).

(** The sign-in request with the credentials of a sign-up request. *)
Definition signin_of (payload : SignUpRequest.t) : SignInRequest.t :=
  {| SignInRequest.email := SignUpRequest.email payload;
     SignInRequest.password := SignUpRequest.password payload |}.

(** The order item that [checkout] makes of a cart item and its product. *)
Definition order_item (item : CartItem.t) (prod : Doc Product.t) : OrderItem.t :=
  {| OrderItem.product_id := ObjectId_to_str (_id prod);
     OrderItem.title := Product.title (fields prod);
     OrderItem.price := Product.price (fields prod);
     OrderItem.quantity := CartItem.quantity item;
     OrderItem.subtotal :=
       PrimFloat.mul (Product.price (fields prod))
         (Py.float_of_int (CartItem.quantity item)) |}.

(** The payment reference that [checkout] makes of its random bytes. *)
Definition payment_ref_of (random : urandom4) : str :=
  ("PAY-" ++ Py.upper (Py.bytes_hex (bytes_of_urandom4 random)))%string.

End Vocabulary.

(* ------------------------------------------------------------------ *)
(** ** A reference instance, for the examples *)

Module Reference.

(** Keys as the 96-bit number their 24 hexadecimal digits spell. *)
Definition hex_value (c : ascii) : option N :=
  let n := N_of_ascii c in
  if ((48 <=? n) && (n <=? 57))%N then Some (n - 48)%N
  else if ((97 <=? n) && (n <=? 102))%N then Some (n - 87)%N
  else if ((65 <=? n) && (n <=? 70))%N then Some (n - 55)%N
  else None.

Fixpoint hex_to_N (s : str) (acc : N) : option N :=
  match s with
  | EmptyString => Some acc
  | String c rest =>
      match hex_value c with
      | Some v => hex_to_N rest (16 * acc + v)%N
      | None => None
      end
  end.

Definition of_str (s : str) : option N :=
  if (String.length s =? 24)%nat then hex_to_N s 0%N else None.

Fixpoint N_to_hex (digits : nat) (n : N) : str :=
  match digits with
  | O => EmptyString
  | S k => (N_to_hex k (n / 16)%N ++ String (Py.hexdigit (n mod 16)%N) EmptyString)%string
  end.

Definition to_str (n : N) : str := N_to_hex 24 n.

Definition new (used : list N) : N := (1 + fold_right N.max 0 used)%N.

#[export] Instance Hex24 : ObjectIdT :=
  {| ObjectId := N;
     ObjectId_eqb := N.eqb;
     ObjectId_of_str := of_str;
     ObjectId_to_str := to_str;
     ObjectId_new := new |}.

End Reference.

(** SHA-256 (FIPS 180-4) on byte sequences, for [hashlib.sha256]. *)
Module SHA256.

Local Open Scope N_scope.

Definition add32 (a b : N) : N := (a + b) mod 4294967296.

Definition rotr (n x : N) : N :=
  N.lor (N.shiftr x n) (N.shiftl x (32 - n) mod 4294967296).

Definition Ch (x y z : N) : N :=
  N.lxor (N.land x y) (N.land (N.lxor x 4294967295) z).

Definition Maj (x y z : N) : N :=
  N.lxor (N.land x y) (N.lxor (N.land x z) (N.land y z)).

Definition Sigma0 (x : N) : N :=
  N.lxor (rotr 2 x) (N.lxor (rotr 13 x) (rotr 22 x)).

Definition Sigma1 (x : N) : N :=
  N.lxor (rotr 6 x) (N.lxor (rotr 11 x) (rotr 25 x)).

Definition sigma0 (x : N) : N :=
  N.lxor (rotr 7 x) (N.lxor (rotr 18 x) (N.shiftr x 3)).

Definition sigma1 (x : N) : N :=
  N.lxor (rotr 17 x) (N.lxor (rotr 19 x) (N.shiftr x 10)).

(** The first 64 primes. *)
Definition primes : list N :=
  [2; 3; 5; 7; 11; 13; 17; 19; 23; 29; 31; 37; 41; 43; 47; 53;
   59; 61; 67; 71; 73; 79; 83; 89; 97; 101; 103; 107; 109; 113; 127; 131;
   137; 139; 149; 151; 157; 163; 167; 173; 179; 181; 191; 193; 197; 199;
   211; 223; 227; 229; 233; 239; 241; 251; 257; 263; 269; 271; 277; 281;
   283; 293; 307; 311].

(** The integer cube root of [n], found bit by bit below [2 ^ k] from
    the lower bound [r]. *)
Fixpoint cbrt_from (k : nat) (n r : N) : N :=
  match k with
  | O => r
  | S k' =>
      let r' := r + 2 ^ N.of_nat k' in
      if r' * r' * r' <=? n then cbrt_from k' n r' else cbrt_from k' n r
  end.

(** The round constants: the first 32 bits of the fractional parts of
    the cube roots of the first 64 primes. *)
Definition K : list N :=
  map (fun p => cbrt_from 40 (p * 2 ^ 96) 0 mod 4294967296) primes.

(** The initial hash value: the first 32 bits of the fractional parts of
    the square roots of the first 8 primes. *)
Definition H0 : list N :=
  map (fun p => N.sqrt (p * 2 ^ 64) mod 4294967296) (firstn 8 primes).

(** The [k] big-endian bytes of [n]. *)
Fixpoint be_bytes (k : nat) (n : N) : list N :=
  match k with
  | O => []
  | S k' => be_bytes k' (n / 256) ++ [n mod 256]
  end.

(** The message, then 0x80, zeros, and the bit length on 8 bytes. *)
Definition pad (msg : list N) : list N :=
  let len := N.of_nat (List.length msg) in
  let zeros := N.to_nat ((119 - len mod 64) mod 64) in
  msg ++ [128] ++ repeat 0 zeros ++ be_bytes 8 (8 * len).

(** The big-endian 32-bit words of a byte sequence. *)
Fixpoint words (bytes : list N) : list N :=
  match bytes with
  | a :: b :: c :: d :: rest =>
      (((a * 256 + b) * 256 + c) * 256 + d) :: words rest
  | _ => []
  end.

(** The message schedule, latest word first: [n] more words after [w]. *)
Fixpoint schedule (n : nat) (w : list N) : list N :=
  match n with
  | O => w
  | S n' =>
      let x := add32 (add32 (sigma1 (nth 1 w 0)) (nth 6 w 0))
                 (add32 (sigma0 (nth 14 w 0)) (nth 15 w 0)) in
      schedule n' (x :: w)
  end.

Definition state : Type := N * N * N * N * N * N * N * N.

Definition round (s : state) (kw : N * N) : state :=
  let '(a, b, c, d, e, f, g, h) := s in
  let t1 :=
    add32 (add32 (add32 h (Sigma1 e)) (add32 (Ch e f g) (fst kw))) (snd kw) in
  let t2 := add32 (Sigma0 a) (Maj a b c) in
  (add32 t1 t2, a, b, c, add32 d t1, e, f, g).

Definition compress (s : state) (block : list N) : state :=
  let w := rev (schedule 48 (rev block)) in
  let '(a, b, c, d, e, f, g, h) := fold_left round (combine K w) s in
  let '(a0, b0, c0, d0, e0, f0, g0, h0) := s in
  (add32 a0 a, add32 b0 b, add32 c0 c, add32 d0 d,
   add32 e0 e, add32 f0 f, add32 g0 g, add32 h0 h).

(** The first [n] blocks of 16 words of a word sequence. *)
Fixpoint blocks (n : nat) (ws : list N) : list (list N) :=
  match n with
  | O => []
  | S n' => firstn 16 ws :: blocks n' (skipn 16 ws)
  end.

Definition digest_words (msg : list N) : list N :=
  let ws := words (pad msg) in
  let '(a, b, c, d, e, f, g, h) :=
    fold_left compress (blocks (List.length ws / 16) ws)
      (nth 0 H0 0, nth 1 H0 0, nth 2 H0 0, nth 3 H0 0,
       nth 4 H0 0, nth 5 H0 0, nth 6 H0 0, nth 7 H0 0) in
  [a; b; c; d; e; f; g; h].

(** [hashlib.sha256(s.encode()).hexdigest()], a [str] being the sequence
    of the bytes of its encoding. *)
Definition hexdigest (s : str) : str :=
  String.concat ""
    (map (Reference.N_to_hex 8)
       (digest_words (map N_of_ascii (list_ascii_of_string s)))).

End SHA256.

(** Data of the examples. *)
Module Demo.

Import Reference.

(** The key that 24 hexadecimal digits spell. *)
Definition key (s : str) : N :=
  match of_str s with
  | Some n => n
  | None => 0%N
  end.

Definition u1 : str := "64b7f0c2a1d3e4f5a6b7c8d9".
Definition p1 : str := "507f1f77bcf86cd799439011".
Definition p2 : str := "507f1f77bcf86cd799439012".

(** A well-formed id of no product. *)
Definition p_gone : str := "507f1f77bcf86cd7994390ff".

Definition widget : Product.t :=
  {| Product.title := "Widget";
     Product.description := None;
     Product.price := 10%float;
     Product.image_url := None;
     Product.category := None;
     Product.in_stock := true |}.

Definition sticker : Product.t :=
  {| Product.title := "Sticker";
     Product.description := None;
     Product.price := 0.125%float;
     Product.image_url := None;
     Product.category := None;
     Product.in_stock := true |}.

(** A store with two products, no user, no cart and no order. *)
Definition catalog : Database :=
  {| user_docs := [];
     product_docs :=
       [ {| _id := key p1; fields := widget |};
         {| _id := key p2; fields := sticker |} ];
     cart_docs := [];
     order_docs := [] |}.

Definition add (user_id product_id : str) (quantity : Z) : AddToCartRequest.t :=
  {| AddToCartRequest.user_id := user_id;
     AddToCartRequest.product_id := product_id;
     AddToCartRequest.quantity := quantity |}.

Definition random : urandom4 := (x01, x9f, xc4, x3b)%byte.

(** An empty process environment: [AUTH_SALT] is not set. *)
Definition environ : str -> option str := fun _ => None.

Definition alice_up : SignUpRequest.t :=
  {| SignUpRequest.name := "Alice";
     SignUpRequest.email := "alice@example.com";
     SignUpRequest.password := "correct horse" |}.

Definition alice_in : SignInRequest.t :=
  {| SignInRequest.email := "alice@example.com";
     SignInRequest.password := "correct horse" |}.

Definition alice_wrong : SignInRequest.t :=
  {| SignInRequest.email := "alice@example.com";
     SignInRequest.password := "wrong" |}.

Definition checkout_u1 : CheckoutRequest.t :=
  {| CheckoutRequest.user_id := u1 |}.

(** The store after [add_item(u1,p1,2)] and [add_item(u1,p1,3)]. *)
Definition cart_db : Database :=
  run_add_to_cart [add u1 p1 2; add u1 p1 3] catalog.

(** What [checkout(u1)] returns on [cart_db], and the store it leaves. *)
Definition receipt : CheckoutResponse.t :=
  {| CheckoutResponse.order_id := "000000000000000000000001";
     CheckoutResponse.amount := 50%float;
     CheckoutResponse.currency := "usd";
     CheckoutResponse.payment_ref := "PAY-019FC43B" |}.

Definition paid_db : Database := snd (checkout random checkout_u1 cart_db).

(** A store where the cart of [u1] has one sticker, of price 0.125. *)
Definition sticker_db : Database := run_add_to_cart [add u1 p2 1] catalog.

Definition sticker_receipt : CheckoutResponse.t :=
  {| CheckoutResponse.order_id := "000000000000000000000001";
     CheckoutResponse.amount := 0.12%float;
     CheckoutResponse.currency := "usd";
     CheckoutResponse.payment_ref := "PAY-019FC43B" |}.

(** A store where the cart of [u1] refers to a product that is gone. *)
Definition stale_db : Database :=
  {| user_docs := [];
     product_docs := product_docs catalog;
     cart_docs :=
       [ {| _id := 1%N;
            fields :=
              {| Cart.user_id := u1;
                 Cart.items :=
                   [ {| CartItem.product_id := p1; CartItem.quantity := 1 |};
                     {| CartItem.product_id := p_gone; CartItem.quantity := 2 |} ] |} |} ];
     order_docs := [] |}.

(** What [signup] and [signin] return to Alice, and the store after her
    signup. *)
Definition alice_auth : AuthResponse.t :=
  {| AuthResponse.user_id := "000000000000000000000001";
     AuthResponse.name := "Alice";
     AuthResponse.email := "alice@example.com";
     AuthResponse.token :=
       "83f2dfb97e581fc7d1b9b4c09f3345042afb4959906e402b3fac1d3d6be8ff85" |}.

Definition alice_db : Database :=
  snd (signup SHA256.hexdigest environ alice_up catalog).

Definition u2 : str := "64b7f0c2a1d3e4f5a6b7c8da".

Definition widget_doc : Doc Product.t := {| _id := key p1; fields := widget |}.

(** The user document of Alice after her signup. *)
Definition alice_doc : Doc User.t :=
  {| _id := 1%N;
     fields :=
       {| User.name := "Alice";
          User.email := "alice@example.com";
          User.password_hash :=
            "5f1cdeaa994b95a738953f49b2c5123171f0df5f29dbe47d6e2aa45e208fb62e";
          User.is_active := true;
          User.role := "user" |} |}.

(** A store where the cart of [u1] holds an id that is not well-formed. *)
Definition broken_db : Database :=
  {| user_docs := [];
     product_docs := product_docs catalog;
     cart_docs :=
       [ {| _id := 1%N;
            fields :=
              {| Cart.user_id := u1;
                 Cart.items :=
                   [ {| CartItem.product_id := "not-an-id";
                        CartItem.quantity := 1 |} ] |} |} ];
     order_docs := [] |}.

(** What [list_products] returns on the catalog. *)
Definition listing : list (option (Serialized.t Product.t)) :=
  [ Some {| Serialized.id := p1; Serialized.doc := widget |};
    Some {| Serialized.id := p2; Serialized.doc := sticker |} ].

(** The order of [checkout(u1)] on [cart_db]. *)
Definition paid_order : Doc Order.t :=
  {| _id := 1%N;
     fields :=
       {| Order.user_id := u1;
          Order.items :=
            [ {| OrderItem.product_id := p1;
                 OrderItem.title := "Widget";
                 OrderItem.price := 10%float;
                 OrderItem.quantity := 5;
                 OrderItem.subtotal := 50%float |} ];
          Order.amount := 50%float;
          Order.currency := "usd";
          Order.status := "paid";
          Order.payment_ref := Some "PAY-019FC43B" |} |}.

End Demo.

(* ------------------------------------------------------------------ *)
(** ** Examples: the scenarios of the specification *)

Example sha256_constants :
  firstn 2 SHA256.K = [0x428a2f98; 0x71374491]%N /\
  nth 63 SHA256.K 0%N = 0xc67178f2%N /\
  firstn 2 SHA256.H0 = [0x6a09e667; 0xbb67ae85]%N.
Proof. vm_compute. repeat split. Qed.

Example sha256_abc :
  SHA256.hexdigest "abc"
  = "ba7816bf8f01cfea414140de5dae2223b00361a396177a9cb410ff61f20015ad".
Proof. vm_compute. reflexivity. Qed.

Example round2_ties_to_even : Py.round2 0.125%float = 0.12%float.
Proof. vm_compute. reflexivity. Qed.

Example round2_binary_value : Py.round2 2.675%float = 2.67%float.
Proof. vm_compute. reflexivity. Qed.

(** [add_item(u1,p1,2)] then [add_item(u1,p1,3)]: one item [{p1, 5}]. *)
Example scenario_add_twice :
  option_map (fun c => Cart.items (fields c))
    (cart_of (run_add_to_cart [Demo.add Demo.u1 Demo.p1 2; Demo.add Demo.u1 Demo.p1 3]
                Demo.catalog) Demo.u1)
  = Some [{| CartItem.product_id := Demo.p1; CartItem.quantity := 5 |}].
Proof. vm_compute. reflexivity. Qed.

(* ------------------------------------------------------------------ *)
(** ** Properties of the handlers *)

Ltac unfold_M :=
  unfold bson_items, bind, ret, raise, lift, find_one, update_one, insert_one,
    create_document, oid in *.

Section Reads.

Context {O : ObjectIdT}.

(** The loops of [get_cart] and [checkout] only read the store. *)
Lemma get_cart_loop_reads cart_items : forall items total db,
  snd (get_cart_loop cart_items items total db) = db.
Proof.
  induction cart_items as [|item rest IH]; intros items total db; simpl.
  - reflexivity.
  - unfold_M. simpl.
    destruct (ObjectId_of_str (CartItem.product_id item)); simpl; [|reflexivity].
    destruct (find _ (product_docs db)); apply IH.
Qed.

Lemma checkout_loop_reads cart_items : forall items amount db,
  snd (checkout_loop cart_items items amount db) = db.
Proof.
  induction cart_items as [|item rest IH]; intros items amount db; simpl.
  - reflexivity.
  - unfold_M. simpl.
    destruct (ObjectId_of_str (CartItem.product_id item)); simpl; [|reflexivity].
    destruct (find _ (product_docs db)); [apply IH | reflexivity].
Qed.

(** What one turn of the loop of [checkout] does on an item that resolves. *)
Lemma checkout_loop_step item rest items amount db prod :
  resolve db (CartItem.product_id item) = Some prod ->
  checkout_loop (item :: rest) items amount db
  = checkout_loop rest
      (items ++
       [{| OrderItem.product_id := ObjectId_to_str (_id prod);
           OrderItem.title := Product.title (fields prod);
           OrderItem.price := Product.price (fields prod);
           OrderItem.quantity := CartItem.quantity item;
           OrderItem.subtotal :=
             PrimFloat.mul (Product.price (fields prod))
               (Py.float_of_int (CartItem.quantity item)) |}])
      (PrimFloat.add amount
         (PrimFloat.mul (Product.price (fields prod))
            (Py.float_of_int (CartItem.quantity item))))
      db.
Proof.
  unfold resolve. intros H. simpl. unfold_M. simpl.
  destruct (ObjectId_of_str (CartItem.product_id item)); [|discriminate].
  simpl. rewrite H. reflexivity.
Qed.

(** On an item that does not resolve the loop of [checkout] raises 400. *)
Lemma checkout_loop_stop item rest items amount db :
  resolve db (CartItem.product_id item) = None ->
  exists detail,
    checkout_loop (item :: rest) items amount db
    = (Raise (HTTPException 400 detail), db) /\
    (detail = "Invalid id" \/ detail = "Invalid product in cart").
Proof.
  unfold resolve. intros H. simpl. unfold_M. simpl.
  destruct (ObjectId_of_str (CartItem.product_id item)); simpl.
  - rewrite H. eauto.
  - eauto.
Qed.

Lemma checkout_loop_unresolved cart_items : forall items amount db,
  (exists item, In item cart_items /\ resolve db (CartItem.product_id item) = None) ->
  exists detail,
    checkout_loop cart_items items amount db
    = (Raise (HTTPException 400 detail), db) /\
    (detail = "Invalid id" \/ detail = "Invalid product in cart").
Proof.
  induction cart_items as [|item rest IH]; intros items amount db [bad [Hin Hbad]].
  - destruct Hin.
  - destruct (resolve db (CartItem.product_id item)) as [prod|] eqn:Hres.
    + rewrite (checkout_loop_step _ _ _ _ _ _ Hres).
      apply IH. destruct Hin as [->|Hin]; [congruence|eauto].
    + apply checkout_loop_stop. exact Hres.
Qed.

(** The order items and the amount that the loop of [checkout] builds
    when it returns. *)
Lemma checkout_loop_returns cart_items : forall items amount db items' amount' db',
  checkout_loop cart_items items amount db = (Ok (items', amount'), db') ->
  db' = db /\
  exists new_items,
    items' = items ++ new_items /\
    Forall2 (fun item oi =>
               line_subtotal db item = Some (OrderItem.subtotal oi) /\
               OrderItem.subtotal oi
               = PrimFloat.mul (OrderItem.price oi)
                   (Py.float_of_int (OrderItem.quantity oi)))
      cart_items new_items /\
    amount' = fold_left PrimFloat.add (map OrderItem.subtotal new_items) amount.
Proof.
  induction cart_items as [|item rest IH]; intros items amount db items' amount' db' H.
  - simpl in H. unfold ret in H. inversion H; subst.
    split; [reflexivity|]. exists []. rewrite app_nil_r. repeat split. constructor.
  - destruct (resolve db (CartItem.product_id item)) as [prod|] eqn:Hres.
    + rewrite (checkout_loop_step _ _ _ _ _ _ Hres) in H.
      apply IH in H. destruct H as [-> [new_items [-> [HF ->]]]].
      split; [reflexivity|].
      eexists (_ :: new_items). rewrite <- app_assoc. simpl.
      repeat split.
      constructor; [|exact HF]. simpl. unfold line_subtotal. rewrite Hres.
      split; reflexivity.
    + destruct (checkout_loop_stop item rest items amount db Hres) as [detail [Hd _]].
      rewrite Hd in H. discriminate.
Qed.

End Reads.

Section Checkout.

Context {O : ObjectIdT}.

Lemma find_update_first {A} (filter : Doc A -> bool) (set : A -> A) (l : list (Doc A)) :
  (forall d, filter {| _id := _id d; fields := set (fields d) |} = filter d) ->
  find filter (update_first filter set l)
  = option_map (fun d => {| _id := _id d; fields := set (fields d) |}) (find filter l).
Proof.
  intros Hf. induction l as [|d rest IH]; simpl; [reflexivity|].
  destruct (filter d) eqn:Hd; simpl.
  - rewrite Hf, Hd. reflexivity.
  - rewrite Hd. exact IH.
Qed.

Lemma upper_hexdigit_ok (n : N) :
  Py.is_upper_hexdigit (Py.upper_ascii (Py.hexdigit n)) = true.
Proof.
  destruct n as [|p]; [reflexivity|].
  do 4 (destruct p as [p|p|]; try reflexivity).
Qed.

(** [os.urandom(4).hex().upper()] is made of 8 characters among [0-9A-F]. *)
Lemma payment_ref_digits (random : urandom4) :
  String.length (Py.upper (Py.bytes_hex (bytes_of_urandom4 random))) = 8%nat /\
  forallb Py.is_upper_hexdigit
    (list_ascii_of_string (Py.upper (Py.bytes_hex (bytes_of_urandom4 random))))
  = true.
Proof.
  destruct random as [[[b0 b1] b2] b3]. split; [reflexivity|].
  cbn [bytes_of_urandom4 Py.bytes_hex Py.upper list_ascii_of_string forallb].
  rewrite !upper_hexdigit_ok. reflexivity.
Qed.

(** A checkout that returns has read a cart with items, run its loop to
    the end, added one order and emptied the first cart of the user. *)
Lemma checkout_returns random payload db r db' :
  checkout random payload db = (Ok r, db') ->
  exists cart items amount,
    cart_of db (CheckoutRequest.user_id payload) = Some cart /\
    Cart.items (fields cart) <> [] /\
    checkout_loop (Cart.items (fields cart)) [] PrimFloat.zero db
    = (Ok (items, amount), db) /\
    order_docs db'
    = order_docs db ++
      [{| _id := ObjectId_new (map _id (order_docs db));
          fields := order_of random payload items amount |}] /\
    cart_docs db'
    = update_first
        (fun d => String.eqb (Cart.user_id (fields d)) (CheckoutRequest.user_id payload))
        (fun c => {| Cart.user_id := Cart.user_id c; Cart.items := [] |})
        (cart_docs db) /\
    product_docs db' = product_docs db /\
    user_docs db' = user_docs db /\
    CheckoutResponse.amount r = Py.round2 amount.
Proof.
  unfold checkout, cart_of. unfold_M. simpl.
  destruct (find _ (cart_docs db)) as [cart|] eqn:Hcart; [|discriminate].
  destruct (Cart.items (fields cart)) as [|item rest] eqn:Hitems; [discriminate|].
  rewrite <- Hitems.
  pose proof (checkout_loop_reads (Cart.items (fields cart)) [] PrimFloat.zero db) as Hreads.
  destruct (checkout_loop (Cart.items (fields cart)) [] PrimFloat.zero db)
    as [[[items amount]|e] db1] eqn:Hloop; [|discriminate].
  simpl in Hreads. subst db1. simpl. intros H. inversion H; subst; clear H.
  exists cart, items, amount. simpl.
  repeat split; try reflexivity; try exact Hloop. rewrite Hitems. discriminate.
Qed.

End Checkout.

Section CheckoutClaims.

Context {O : ObjectIdT}.

Lemma checkout_on_empty random payload db :
  cart_absent_or_empty db (CheckoutRequest.user_id payload) ->
  checkout random payload db = (Raise (HTTPException 400 "Cart is empty"), db).
Proof.
  unfold cart_absent_or_empty, cart_of, checkout. unfold_M. simpl.
  destruct (find _ (cart_docs db)) as [cart|]; [|reflexivity].
  intros ->. reflexivity.
Qed.

(** After a checkout that returned, the cart of the user has no item. *)
Lemma checkout_empties_cart random payload db r db' :
  checkout random payload db = (Ok r, db') ->
  exists cart',
    cart_of db' (CheckoutRequest.user_id payload) = Some cart' /\
    Cart.items (fields cart') = [].
Proof.
  intros H. apply checkout_returns in H.
  destruct H as (cart & items & amount & Hcart & _ & _ & _ & Hcarts & _).
  unfold cart_of in *. rewrite Hcarts, find_update_first by reflexivity.
  rewrite Hcart. simpl. eauto.
Qed.

(** C3: when the cart of the user exists and one of its items has a
    product id that does not resolve to a Product, [checkout] fails with
    an HTTPException of status 400 (detail "Invalid product in cart", or
    "Invalid id" when the id is malformed) and the store is left as it
    was: no Order is created and the Cart keeps its items. *)
Theorem checkout_unresolved_product random payload db cart :
  cart_of db (CheckoutRequest.user_id payload) = Some cart ->
  (exists item,
     In item (Cart.items (fields cart)) /\
     resolve db (CartItem.product_id item) = None) ->
  exists detail,
    checkout random payload db = (Raise (HTTPException 400 detail), db) /\
    (detail = "Invalid id" \/ detail = "Invalid product in cart").
Proof.
  intros Hcart Hbad.
  destruct (checkout_loop_unresolved _ [] PrimFloat.zero db Hbad) as [detail [Hloop Hd]].
  exists detail. split; [|exact Hd].
  unfold cart_of in Hcart. unfold checkout. unfold_M. simpl. rewrite Hcart.
  destruct (Cart.items (fields cart)) as [|item rest] eqn:Hitems.
  - destruct Hbad as [bad [[] _]].
  - rewrite Hloop. reflexivity.
Qed.

(** C4: when the user has no Cart, or a Cart without items, [checkout]
    fails with status 400 "Cart is empty" and the store is left as it was
    (no Order is created); this is so in the store that a successful
    checkout for the same user left, so a second checkout in a row
    fails. *)
Theorem checkout_empty_cart random payload db :
  cart_absent_or_empty db (CheckoutRequest.user_id payload) \/
  just_checked_out db payload ->
  checkout random payload db = (Raise (HTTPException 400 "Cart is empty"), db).
Proof.
  intros [H | (random0 & db0 & r0 & H)].
  - apply checkout_on_empty. exact H.
  - apply checkout_on_empty. unfold cart_absent_or_empty.
    destruct (checkout_empties_cart _ _ _ _ _ H) as [cart' [-> Hitems]].
    exact Hitems.
Qed.

(** C1: a [checkout] that succeeds adds one Order whose amount is
    [round(sum of current price * quantity over the cart items, 2)], whose
    status is "paid" and whose payment_ref is "PAY-" and 8 characters among
    0-9A-F; afterwards the Cart of the user has no item. *)
Theorem checkout_success random payload db r db' :
  checkout random payload db = (Ok r, db') ->
  exists cart subtotals order hex cart',
    cart_of db (CheckoutRequest.user_id payload) = Some cart /\
    Forall2 (fun item s => line_subtotal db item = Some s)
      (Cart.items (fields cart)) subtotals /\
    order_docs db' = order_docs db ++ [order] /\
    Order.amount (fields order) = Py.round2 (fsum subtotals) /\
    CheckoutResponse.amount r = Order.amount (fields order) /\
    Order.status (fields order) = "paid" /\
    Order.payment_ref (fields order) = Some ("PAY-" ++ hex)%string /\
    String.length hex = 8%nat /\
    forallb Py.is_upper_hexdigit (list_ascii_of_string hex) = true /\
    cart_of db' (CheckoutRequest.user_id payload) = Some cart' /\
    Cart.items (fields cart') = [].
Proof.
  intros H.
  destruct (checkout_empties_cart _ _ _ _ _ H) as [cart' [Hcart' Hempty]].
  apply checkout_returns in H.
  destruct H as (cart & items & amount & Hcart & _ & Hloop & Horders & _ & _ & _ & Hr).
  apply checkout_loop_returns in Hloop.
  destruct Hloop as [_ [new_items [Hitems [HF Hamount]]]].
  destruct (payment_ref_digits random) as [Hlen Hhex].
  exists cart, (map OrderItem.subtotal new_items),
    {| _id := ObjectId_new (map _id (order_docs db));
       fields := order_of random payload items amount |},
    (Py.upper (Py.bytes_hex (bytes_of_urandom4 random))), cart'.
  simpl. unfold fsum. rewrite <- Hamount.
  repeat split; try assumption; try reflexivity.
  clear - HF. induction HF as [|item oi l l' [Hs _] _ IH]; simpl; constructor; assumption.
Qed.

(** C5, as the code has it: the amount of the Order that [checkout]
    creates is the sum of the subtotals of its items rounded to 2
    decimals, and the subtotal of each item is its price times its
    quantity, not rounded. *)
Theorem checkout_amount_rounds_sum random payload db r db' :
  checkout random payload db = (Ok r, db') ->
  exists order,
    order_docs db' = order_docs db ++ [order] /\
    Order.amount (fields order)
    = Py.round2 (fsum (map OrderItem.subtotal (Order.items (fields order)))) /\
    Forall (fun oi =>
              OrderItem.subtotal oi
              = PrimFloat.mul (OrderItem.price oi)
                  (Py.float_of_int (OrderItem.quantity oi)))
      (Order.items (fields order)).
Proof.
  intros H. apply checkout_returns in H.
  destruct H as (cart & items & amount & _ & _ & Hloop & Horders & _).
  apply checkout_loop_returns in Hloop.
  destruct Hloop as [_ [new_items [Hitems [HF Hamount]]]].
  simpl in Hitems. subst items.
  eexists. split; [exact Horders|]. simpl. unfold fsum. rewrite <- Hamount.
  split; [reflexivity|].
  clear - HF. induction HF as [|item oi l l' [_ Hs] _ IH]; constructor; assumption.
Qed.

End CheckoutClaims.

Section CartView.

Context {O : ObjectIdT}.

Lemma get_cart_loop_lines cart_items : forall items total db,
  wellformed_ids cart_items ->
  get_cart_loop cart_items items total db
  = (Ok (items ++ cart_lines db cart_items,
         fold_left PrimFloat.add (map line_amount (cart_lines db cart_items)) total),
     db).
Proof.
  induction cart_items as [|item rest IH]; intros items total db Hwf.
  - simpl. rewrite app_nil_r. reflexivity.
  - inversion Hwf as [|? ? Hitem Hrest]; subst.
    simpl. unfold_M. unfold resolve. simpl.
    destruct (ObjectId_of_str (CartItem.product_id item)) as [o|]; [|congruence].
    simpl. destruct (find _ (product_docs db)) as [prod|].
    + specialize (IH (items ++ [cart_line item prod])
                    (PrimFloat.add total
                       (PrimFloat.mul (Product.price (fields prod))
                          (Py.float_of_int (CartItem.quantity item)))) db Hrest).
      unfold_M. unfold cart_line in *. rewrite IH. simpl.
      rewrite <- app_assoc. reflexivity.
    + apply IH. exact Hrest.
Qed.

(** Each line of the view comes from an item of the cart whose product
    resolves, and carries the current title and price of that product. *)
Lemma cart_lines_in db cart_items line :
  In line (cart_lines db cart_items) <->
  exists item prod,
    In item cart_items /\
    resolve db (CartItem.product_id item) = Some prod /\
    line = cart_line item prod.
Proof.
  induction cart_items as [|item rest IH]; simpl.
  - split; [intros [] | intros (? & ? & [] & _)].
  - destruct (resolve db (CartItem.product_id item)) as [prod|] eqn:Hres; simpl.
    + rewrite IH. split.
      * intros [<- | (i & p & Hin & Hr & ->)]; eauto 6.
      * intros (i & p & [<- | Hin] & Hr & ->).
        -- left. congruence.
        -- right. eauto.
    + rewrite IH. split.
      * intros (i & p & Hin & Hr & ->). eauto 6.
      * intros (i & p & [<- | Hin] & Hr & ->); [congruence | eauto].
Qed.

Lemma cart_lines_app db l1 l2 :
  cart_lines db (l1 ++ l2) = cart_lines db l1 ++ cart_lines db l2.
Proof.
  induction l1 as [|item rest IH]; simpl; [reflexivity|].
  destruct (resolve db (CartItem.product_id item)); simpl; congruence.
Qed.

(** An item whose product does not resolve adds no line. *)
Lemma cart_lines_omits db l1 item l2 :
  resolve db (CartItem.product_id item) = None ->
  cart_lines db (l1 ++ item :: l2) = cart_lines db (l1 ++ l2).
Proof.
  intros H. rewrite !cart_lines_app. simpl. rewrite H. reflexivity.
Qed.

(** C8: for a user without a Cart document, [get_cart] returns, without
    raising, no items and the total 0. *)
Theorem get_cart_without_cart db user_id :
  cart_of db user_id = None ->
  get_cart user_id db
  = (Ok {| CartView.items := []; CartView.total := Int 0 |}, db).
Proof.
  unfold cart_of, get_cart. unfold_M. simpl. intros ->. reflexivity.
Qed.

(** What [get_cart] returns for a cart whose product ids are well-formed. *)
Lemma get_cart_returns db user_id cart :
  cart_of db user_id = Some cart ->
  wellformed_ids (Cart.items (fields cart)) ->
  get_cart user_id db
  = (Ok {| CartView.items := cart_lines db (Cart.items (fields cart));
           CartView.total :=
             Float (Py.round2
                      (fsum (map line_amount
                               (cart_lines db (Cart.items (fields cart)))))) |},
     db).
Proof.
  unfold cart_of, get_cart. intros Hcart Hwf. unfold_M. simpl. rewrite Hcart.
  pose proof (get_cart_loop_lines _ [] PrimFloat.zero db Hwf) as Hloop.
  unfold_M. rewrite Hloop. reflexivity.
Qed.

(** C9: for an existing Cart, [get_cart] returns one line per cart item
    whose product resolves, with the current title and price of the
    product, leaves out without error the items whose product is gone,
    and its total is the sum of price times quantity over the returned
    lines, rounded to 2 decimals. *)
Theorem get_cart_view db user_id cart :
  cart_of db user_id = Some cart ->
  wellformed_ids (Cart.items (fields cart)) ->
  exists lines,
    get_cart user_id db
    = (Ok {| CartView.items := lines;
             CartView.total := Float (Py.round2 (fsum (map line_amount lines))) |},
       db) /\
    lines = cart_lines db (Cart.items (fields cart)) /\
    (forall line,
       In line lines <->
       exists item prod,
         In item (Cart.items (fields cart)) /\
         resolve db (CartItem.product_id item) = Some prod /\
         line = cart_line item prod).
Proof.
  intros Hcart Hwf. exists (cart_lines db (Cart.items (fields cart))).
  split; [apply get_cart_returns; assumption|].
  split; [reflexivity|].
  intros line. apply cart_lines_in.
Qed.

End CartView.

Section AddToCart.

Context {O : ObjectIdT}.

(** C7, as the code has it: when the product id of the request does not
    resolve to a Product, [add_to_cart] fails and the store is left as it
    was (no Cart is created, none is modified); the failure is 400
    "Invalid id" when the user id or the product id is not a well-formed
    id, and 404 "Product not found" otherwise. *)
Theorem add_to_cart_unresolved db payload :
  resolve db (AddToCartRequest.product_id payload) = None ->
  add_to_cart payload db
  = (Raise
       match ObjectId_of_str (AddToCartRequest.user_id payload),
             ObjectId_of_str (AddToCartRequest.product_id payload) with
       | Some _, Some _ => HTTPException 404 "Product not found"
       | _, _ => HTTPException 400 "Invalid id"
       end,
     db).
Proof.
  unfold resolve, add_to_cart. unfold_M. simpl. intros H.
  destruct (ObjectId_of_str (AddToCartRequest.user_id payload)); simpl; [|reflexivity].
  destruct (ObjectId_of_str (AddToCartRequest.product_id payload)); simpl; [|reflexivity].
  rewrite H. reflexivity.
Qed.

(** The loop of [add_to_cart] adds the requested quantity to every item
    with the requested product id and tells whether there was one. *)
Lemma add_to_cart_loop_spec payload items : forall updated,
  add_to_cart_loop items payload updated
  = (map (add_quantity (AddToCartRequest.product_id payload)
            (AddToCartRequest.quantity payload)) items,
     updated ||
     existsb (fun item => String.eqb (CartItem.product_id item)
                            (AddToCartRequest.product_id payload)) items).
Proof.
  induction items as [|item rest IH]; intros updated; simpl.
  - rewrite orb_false_r. reflexivity.
  - unfold add_quantity at 1.
    destruct (String.eqb (CartItem.product_id item)
                (AddToCartRequest.product_id payload)); rewrite IH; simpl.
    + rewrite orb_true_r. reflexivity.
    + reflexivity.
Qed.


Lemma add_quantity_product_id pid q item :
  CartItem.product_id (add_quantity pid q item) = CartItem.product_id item.
Proof. unfold add_quantity. destruct (String.eqb _ _); reflexivity. Qed.







End AddToCart.

Section AddToCartStore.

Context {O : ObjectIdT} {L : ObjectIdLaws O}.

Lemma ObjectId_eqb_refl (a : ObjectId) : ObjectId_eqb a a = true.
Proof. apply ObjectId_eqb_eq. reflexivity. Qed.

Lemma ObjectId_eqb_neq (a b : ObjectId) : a <> b -> ObjectId_eqb a b = false.
Proof.
  intros Hne. destruct (ObjectId_eqb a b) eqn:E; [|reflexivity].
  apply ObjectId_eqb_eq in E. contradiction.
Qed.

Lemma update_first_ids {A} (filter : Doc A -> bool) (set : A -> A) (l : list (Doc A)) :
  map _id (update_first filter set l) = map _id l.
Proof.
  induction l as [|d rest IH]; simpl; [reflexivity|].
  destruct (filter d); simpl; congruence.
Qed.

(** With unique keys, updating by the key of the first match of a filter
    is updating the first match of the filter. *)
Lemma update_first_by_id {A} (filter : Doc A -> bool) (set : A -> A)
  (l : list (Doc A)) (d : Doc A) :
  NoDup (map _id l) ->
  find filter l = Some d ->
  update_first (fun x => ObjectId_eqb (_id x) (_id d)) set l
  = update_first filter set l.
Proof.
  induction l as [|h rest IH]; simpl; intros Hnd Hfind; [discriminate|].
  inversion Hnd as [|? ? Hnin Hnd']; subst.
  destruct (filter h) eqn:Hh.
  - inversion Hfind; subst. rewrite ObjectId_eqb_refl. reflexivity.
  - rewrite ObjectId_eqb_neq.
    + rewrite IH by assumption. reflexivity.
    + intros Heq. apply Hnin. rewrite Heq. apply in_map.
      apply find_some in Hfind. apply Hfind.
Qed.







End AddToCartStore.

Section AddToCartSequences.

Context {O : ObjectIdT} {L : ObjectIdLaws O}.








End AddToCartSequences.

Section StoredItems.

Context {O : ObjectIdT}.

Lemma add_item_Forall (P : CartItem.t -> Prop) items payload :
  (forall item,
     P item ->
     P (add_quantity (AddToCartRequest.product_id payload)
          (AddToCartRequest.quantity payload) item)) ->
  P {| CartItem.product_id := AddToCartRequest.product_id payload;
       CartItem.quantity := AddToCartRequest.quantity payload |} ->
  Forall P items ->
  Forall P (add_item items payload).
Proof.
  intros Hadd Hnew Hall. unfold add_item. rewrite add_to_cart_loop_spec. simpl.
  assert (Hmap : Forall P (map (add_quantity (AddToCartRequest.product_id payload)
                                 (AddToCartRequest.quantity payload)) items)).
  { apply Forall_map. eapply Forall_impl; [exact Hadd | exact Hall]. }
  destruct (existsb _ items); simpl; [exact Hmap|].
  apply Forall_app. split; [exact Hmap | repeat constructor; exact Hnew].
Qed.

Lemma update_first_Forall {A} (Q : Doc A -> Prop) filter (set : A -> A) l :
  (forall d, In d l -> Q {| _id := _id d; fields := set (fields d) |}) ->
  Forall Q l ->
  Forall Q (update_first filter set l).
Proof.
  induction l as [|d rest IH]; simpl; intros Hset Hall; [constructor|].
  inversion Hall; subst.
  destruct (filter d); constructor; auto.
Qed.

(** What a call of [add_to_cart] can do to the cart collection: nothing,
    add a cart with the validated item, or write merged items to a cart. *)
Lemma add_to_cart_writes payload db :
  snd (add_to_cart payload db) = db \/
  ObjectId_of_str (AddToCartRequest.product_id payload) <> None /\
  ((1 <= AddToCartRequest.quantity payload /\
    exists i,
      cart_docs (snd (add_to_cart payload db))
      = cart_docs db ++
        [{| _id := i;
            fields :=
              {| Cart.user_id := AddToCartRequest.user_id payload;
                 Cart.items :=
                   [{| CartItem.product_id := AddToCartRequest.product_id payload;
                       CartItem.quantity := AddToCartRequest.quantity payload |}] |} |}]) \/
   (exists cart,
      In cart (cart_docs db) /\
      cart_docs (snd (add_to_cart payload db))
      = update_first (fun d => ObjectId_eqb (_id d) (_id cart))
          (fun c => {| Cart.user_id := Cart.user_id c;
                       Cart.items := add_item (Cart.items (fields cart)) payload |})
          (cart_docs db))).
Proof.
  unfold add_to_cart. unfold_M. simpl.
  destruct (ObjectId_of_str (AddToCartRequest.user_id payload)); [|left; reflexivity].
  simpl.
  destruct (ObjectId_of_str (AddToCartRequest.product_id payload)) as [po|];
    [|left; reflexivity].
  simpl. destruct (find _ (product_docs db)); [|left; reflexivity].
  destruct (find _ (cart_docs db)) as [cart|] eqn:Hcart.
  - destruct (add_to_cart_loop (Cart.items (fields cart)) payload false)
      as [items updated] eqn:Hloop. simpl.
    destruct (items_int64 _); [|left; reflexivity].
    right. split; [discriminate|].
    right. exists cart. split; [apply find_some in Hcart; apply Hcart|].
    unfold add_item. rewrite Hloop. reflexivity.
  - unfold CartSchema, CartSchema_items, CartItemSchema.
    destruct (Z.leb_spec 1 (AddToCartRequest.quantity payload)) as [Hq|Hq]; simpl.
    + match goal with
      | |- context [if ?fits then _ else _] => destruct fits
      end; [|left; reflexivity].
      right. split; [discriminate|].
      left. split; [exact Hq|]. eexists. reflexivity.
    + left. reflexivity.
Qed.

(** [add_to_cart] keeps a property of the stored items that adding the
    requested quantity keeps and that the requested item has. *)
Lemma add_to_cart_keeps (P : CartItem.t -> Prop) payload db :
  (forall item,
     P item ->
     P (add_quantity (AddToCartRequest.product_id payload)
          (AddToCartRequest.quantity payload) item)) ->
  (ObjectId_of_str (AddToCartRequest.product_id payload) <> None ->
   P {| CartItem.product_id := AddToCartRequest.product_id payload;
        CartItem.quantity := AddToCartRequest.quantity payload |}) ->
  carts_all P db ->
  carts_all P (snd (add_to_cart payload db)).
Proof.
  intros Hadd Hnew Hall. unfold carts_all in *.
  destruct (add_to_cart_writes payload db)
    as [-> | [Hp [[Hq [i ->]] | [cart [Hin ->]]]]].
  - exact Hall.
  - apply Forall_app. split; [exact Hall|]. repeat constructor. simpl. auto.
  - apply update_first_Forall; [|exact Hall]. intros d _. simpl.
    apply add_item_Forall; auto.
    rewrite Forall_forall in Hall. apply (Hall cart Hin).
Qed.

(** The product ids that [add_to_cart] stores are well-formed ids. *)
Lemma add_to_cart_keeps_ids_wellformed payload db :
  carts_all (fun item => ObjectId_of_str (CartItem.product_id item) <> None) db ->
  carts_all (fun item => ObjectId_of_str (CartItem.product_id item) <> None)
    (snd (add_to_cart payload db)).
Proof.
  apply add_to_cart_keeps.
  - intros item H. rewrite add_quantity_product_id. exact H.
  - simpl. auto.
Qed.

(** With requests for a quantity of at least 1, the stored quantities
    stay at least 1. *)
Lemma add_to_cart_keeps_quantities_positive payload db :
  1 <= AddToCartRequest.quantity payload ->
  carts_all (fun item => 1 <= CartItem.quantity item) db ->
  carts_all (fun item => 1 <= CartItem.quantity item) (snd (add_to_cart payload db)).
Proof.
  intros Hq. apply add_to_cart_keeps.
  - intros item H. unfold add_quantity. destruct (String.eqb _ _); simpl; lia.
  - simpl. auto.
Qed.

(** What a call of [checkout] can do to the cart collection: nothing, or
    empty the first cart of the user. *)
Lemma checkout_writes random payload db :
  snd (checkout random payload db) = db \/
  cart_docs (snd (checkout random payload db))
  = update_first
      (fun d => String.eqb (Cart.user_id (fields d)) (CheckoutRequest.user_id payload))
      (fun c => {| Cart.user_id := Cart.user_id c; Cart.items := [] |})
      (cart_docs db).
Proof.
  destruct (checkout random payload db) as [[r|e] db'] eqn:H.
  - right. apply checkout_returns in H.
    destruct H as (cart & items & amount & _ & _ & _ & _ & Hcarts & _). exact Hcarts.
  - left. revert H. unfold checkout. unfold_M. simpl.
    destruct (find _ (cart_docs db)) as [cart|]; [|intros H; inversion H; reflexivity].
    destruct (Cart.items (fields cart)) as [|item rest] eqn:Hitems;
      [intros H; inversion H; reflexivity|].
    rewrite <- Hitems.
    pose proof (checkout_loop_reads (Cart.items (fields cart)) [] PrimFloat.zero db)
      as Hreads.
    destruct (checkout_loop (Cart.items (fields cart)) [] PrimFloat.zero db)
      as [[[items amount]|e'] db1]; simpl in *; subst db1.
    + discriminate.
    + intros H. inversion H. reflexivity.
Qed.

Lemma checkout_keeps (P : CartItem.t -> Prop) random payload db :
  carts_all P db -> carts_all P (snd (checkout random payload db)).
Proof.
  intros Hall. unfold carts_all in *.
  destruct (checkout_writes random payload db) as [-> | ->]; [exact Hall|].
  apply update_first_Forall; [|exact Hall]. intros d _. constructor.
Qed.

(** Every product id in a cart of a store that the handlers built is a
    well-formed id. *)
Lemma reachable_ids_wellformed db :
  reachable db ->
  carts_all (fun item => ObjectId_of_str (CartItem.product_id item) <> None) db.
Proof.
  induction 1 as [db Hempty | db users products _ IH | db payload _ IH
                 | db random payload _ IH].
  - unfold carts_all. rewrite Hempty. constructor.
  - exact IH.
  - apply add_to_cart_keeps_ids_wellformed. exact IH.
  - apply checkout_keeps. exact IH.
Qed.

(** The view of a cart of a store that the handlers built never fails. *)
Lemma get_cart_view_reachable db user_id cart :
  reachable db ->
  cart_of db user_id = Some cart ->
  get_cart user_id db
  = (Ok {| CartView.items := cart_lines db (Cart.items (fields cart));
           CartView.total :=
             Float (Py.round2
                      (fsum (map line_amount
                               (cart_lines db (Cart.items (fields cart)))))) |},
     db).
Proof.
  intros Hreach Hcart. apply get_cart_returns; [exact Hcart|].
  apply reachable_ids_wellformed in Hreach. unfold carts_all in Hreach.
  rewrite Forall_forall in Hreach. apply Hreach.
  unfold cart_of in Hcart. apply find_some in Hcart. apply Hcart.
Qed.

End StoredItems.

Section Auth.

Context {O : ObjectIdT}.

Variable sha256_hexdigest : str -> str.
Variable environ : str -> option str.

(** The token of a successful signup or signin is the digest of
    [email + ":" + password]. *)
Lemma run_auth_token c db r db' :
  run_auth sha256_hexdigest environ c db = (Ok r, db') ->
  AuthResponse.token r
  = hash_password sha256_hexdigest environ
      (fst (credentials c) ++ ":" ++ snd (credentials c))%string.
Proof.
  destruct c as [p|p]; simpl; unfold signup, signin; unfold_M; simpl.
  - destruct (find _ (user_docs db)); [discriminate|].
    intros H. inversion H; subst. reflexivity.
  - destruct (find _ (user_docs db)) as [user|]; [|discriminate].
    destruct (negb _); [discriminate|].
    intros H. inversion H; subst. reflexivity.
Qed.

(** C10: the auth token is a function of the email and the password:
    two calls among signup and signin that succeed with the same
    credentials, on any stores, return the same token. *)
Theorem auth_token_deterministic c1 c2 db1 db2 r1 r2 db1' db2' :
  credentials c1 = credentials c2 ->
  run_auth sha256_hexdigest environ c1 db1 = (Ok r1, db1') ->
  run_auth sha256_hexdigest environ c2 db2 = (Ok r2, db2') ->
  AuthResponse.token r1 = AuthResponse.token r2.
Proof.
  intros Hc H1 H2.
  rewrite (run_auth_token _ _ _ _ H1), (run_auth_token _ _ _ _ H2), Hc.
  reflexivity.
Qed.

End Auth.

(* ------------------------------------------------------------------ *)
(** ** The reference instance satisfies the laws of keys *)

#[export] Instance Hex24_laws : ObjectIdLaws Reference.Hex24.
Proof.
  split.
  - intros a b. apply N.eqb_eq.
  - intros used Hin. simpl in *. unfold Reference.new in Hin.
    assert (Hmax : forall l n, In n l -> (n <= fold_right N.max 0 l)%N).
    { induction l as [|h t IH]; simpl; intros n [].
      - subst. apply N.le_max_l.
      - etransitivity; [apply IH; assumption | apply N.le_max_r]. }
    apply Hmax in Hin. lia.
Qed.

(* ------------------------------------------------------------------ *)
(** ** The theorems at concrete inputs *)

Section Instances.

Import Reference.

(** The scenario of the specification: a cart of 5 widgets at 10.00. *)
Lemma checkout_success_witness :
  checkout Demo.random Demo.checkout_u1 Demo.cart_db
  = (Ok Demo.receipt, Demo.paid_db) /\
  exists cart subtotals order hex cart',
    cart_of Demo.cart_db Demo.u1 = Some cart /\
    Forall2 (fun item s => line_subtotal Demo.cart_db item = Some s)
      (Cart.items (fields cart)) subtotals /\
    order_docs Demo.paid_db = order_docs Demo.cart_db ++ [order] /\
    Order.amount (fields order) = Py.round2 (fsum subtotals) /\
    CheckoutResponse.amount Demo.receipt = Order.amount (fields order) /\
    Order.status (fields order) = "paid" /\
    Order.payment_ref (fields order) = Some ("PAY-" ++ hex)%string /\
    String.length hex = 8%nat /\
    forallb Py.is_upper_hexdigit (list_ascii_of_string hex) = true /\
    cart_of Demo.paid_db Demo.u1 = Some cart' /\
    Cart.items (fields cart') = [].
Proof.
  assert (H : checkout Demo.random Demo.checkout_u1 Demo.cart_db
              = (Ok Demo.receipt, Demo.paid_db)) by (vm_compute; reflexivity).
  split; [exact H|].
  exact (checkout_success Demo.random Demo.checkout_u1 Demo.cart_db
           Demo.receipt Demo.paid_db H).
Defined.



(** A cart with a widget and a product that is gone. *)
Lemma checkout_unresolved_product_witness :
  (exists item,
     In item [ {| CartItem.product_id := Demo.p1; CartItem.quantity := 1 |};
               {| CartItem.product_id := Demo.p_gone; CartItem.quantity := 2 |} ] /\
     resolve Demo.stale_db (CartItem.product_id item) = None) /\
  exists detail,
    checkout Demo.random Demo.checkout_u1 Demo.stale_db
    = (Raise (HTTPException 400 detail), Demo.stale_db) /\
    (detail = "Invalid id" \/ detail = "Invalid product in cart").
Proof.
  assert (H : exists item,
     In item [ {| CartItem.product_id := Demo.p1; CartItem.quantity := 1 |};
               {| CartItem.product_id := Demo.p_gone; CartItem.quantity := 2 |} ] /\
     resolve Demo.stale_db (CartItem.product_id item) = None).
  { eexists. split; [right; left; reflexivity | reflexivity]. }
  split; [exact H|].
  exact (checkout_unresolved_product Demo.random Demo.checkout_u1 Demo.stale_db
           {| _id := 1%N;
              fields :=
                {| Cart.user_id := Demo.u1;
                   Cart.items :=
                     [ {| CartItem.product_id := Demo.p1; CartItem.quantity := 1 |};
                       {| CartItem.product_id := Demo.p_gone;
                          CartItem.quantity := 2 |} ] |} |}
           eq_refl H).
Defined.

(** A user without a cart, and a second checkout in a row. *)
Lemma checkout_empty_cart_witness :
  (cart_absent_or_empty Demo.catalog Demo.u1 /\
   checkout Demo.random Demo.checkout_u1 Demo.catalog
   = (Raise (HTTPException 400 "Cart is empty"), Demo.catalog)) /\
  (just_checked_out Demo.paid_db Demo.checkout_u1 /\
   checkout Demo.random Demo.checkout_u1 Demo.paid_db
   = (Raise (HTTPException 400 "Cart is empty"), Demo.paid_db)).
Proof.
  assert (H1 : cart_absent_or_empty Demo.catalog Demo.u1) by exact I.
  assert (H2 : just_checked_out Demo.paid_db Demo.checkout_u1).
  { exists Demo.random, Demo.cart_db, Demo.receipt. vm_compute. reflexivity. }
  split; (split; [assumption|]).
  - exact (checkout_empty_cart Demo.random Demo.checkout_u1 Demo.catalog (or_introl H1)).
  - exact (checkout_empty_cart Demo.random Demo.checkout_u1 Demo.paid_db (or_intror H2)).
Defined.

(** Two floats that [PrimFloat.eqb] tells apart are different. *)
Lemma float_neq (x y : float) : PrimFloat.eqb x y = false -> PrimFloat.eqb x x = true -> x <> y.
Proof. intros Hxy Hxx Heq. rewrite <- Heq in Hxy. congruence. Qed.

(** C5 as stated fails: with one sticker of price 0.125 in the cart, the
    Order has the subtotal 0.125 (not rounded to 0.12) and the amount
    0.12 (not the sum 0.125 of the subtotals). *)
Lemma checkout_amount_is_not_sum_of_rounded_subtotals :
  exists order,
    checkout Demo.random Demo.checkout_u1 Demo.sticker_db
    = (Ok Demo.sticker_receipt, snd (checkout Demo.random Demo.checkout_u1 Demo.sticker_db)) /\
    order_docs (snd (checkout Demo.random Demo.checkout_u1 Demo.sticker_db))
    = order_docs Demo.sticker_db ++ [order] /\
    Order.amount (fields order)
    <> fsum (map OrderItem.subtotal (Order.items (fields order))) /\
    ~ Forall (fun oi =>
                OrderItem.subtotal oi
                = Py.round2 (PrimFloat.mul (OrderItem.price oi)
                               (Py.float_of_int (OrderItem.quantity oi))))
        (Order.items (fields order)).
Proof.
  eexists. split; [vm_compute; reflexivity|].
  split; [vm_compute; reflexivity|].
  split.
  - apply float_neq; vm_compute; reflexivity.
  - intros H. inversion H as [|? ? Hhead _]; subst.
    revert Hhead. apply float_neq; vm_compute; reflexivity.
Qed.

(** The order for one sticker: subtotal 0.125, amount 0.12. *)
Lemma checkout_amount_rounds_sum_witness :
  checkout Demo.random Demo.checkout_u1 Demo.sticker_db
  = (Ok Demo.sticker_receipt, snd (checkout Demo.random Demo.checkout_u1 Demo.sticker_db)) /\
  exists order,
    order_docs (snd (checkout Demo.random Demo.checkout_u1 Demo.sticker_db))
    = order_docs Demo.sticker_db ++ [order] /\
    Order.amount (fields order)
    = Py.round2 (fsum (map OrderItem.subtotal (Order.items (fields order)))) /\
    Forall (fun oi =>
              OrderItem.subtotal oi
              = PrimFloat.mul (OrderItem.price oi)
                  (Py.float_of_int (OrderItem.quantity oi)))
      (Order.items (fields order)).
Proof.
  assert (H : checkout Demo.random Demo.checkout_u1 Demo.sticker_db
              = (Ok Demo.sticker_receipt,
                 snd (checkout Demo.random Demo.checkout_u1 Demo.sticker_db)))
    by (vm_compute; reflexivity).
  split; [exact H|].
  exact (checkout_amount_rounds_sum Demo.random Demo.checkout_u1 Demo.sticker_db
           Demo.sticker_receipt _ H).
Defined.

(** C7 as stated fails: for a product id that is not a well-formed id,
    and so resolves to no Product, [add_to_cart] fails with status 400,
    not 404. *)
Lemma add_to_cart_malformed_id_is_400 :
  resolve Demo.catalog "not-an-id" = None /\
  add_to_cart (Demo.add Demo.u1 "not-an-id" 1) Demo.catalog
  = (Raise (HTTPException 400 "Invalid id"), Demo.catalog) /\
  ~ (exists e db',
       add_to_cart (Demo.add Demo.u1 "not-an-id" 1) Demo.catalog = (Raise e, db') /\
       status_code_of e = 404).
Proof.
  split; [reflexivity|]. split; [reflexivity|].
  intros (e & db' & H & Hcode).
  vm_compute in H. inversion H; subst. discriminate Hcode.
Qed.

(** A well-formed id of no product gives 404, a malformed id gives 400. *)
Lemma add_to_cart_unresolved_witness :
  (resolve Demo.catalog Demo.p_gone = None /\
   add_to_cart (Demo.add Demo.u1 Demo.p_gone 1) Demo.catalog
   = (Raise (HTTPException 404 "Product not found"), Demo.catalog)) /\
  (resolve Demo.catalog "not-an-id" = None /\
   add_to_cart (Demo.add Demo.u1 "not-an-id" 1) Demo.catalog
   = (Raise (HTTPException 400 "Invalid id"), Demo.catalog)).
Proof.
  assert (H1 : resolve Demo.catalog Demo.p_gone = None) by reflexivity.
  assert (H2 : resolve Demo.catalog "not-an-id" = None) by reflexivity.
  split; (split; [assumption|]).
  - exact (add_to_cart_unresolved Demo.catalog (Demo.add Demo.u1 Demo.p_gone 1) H1).
  - exact (add_to_cart_unresolved Demo.catalog (Demo.add Demo.u1 "not-an-id" 1) H2).
Defined.

(** The cart view of a user of the catalog store, which has no cart. *)
Lemma get_cart_without_cart_witness :
  cart_of Demo.catalog Demo.u1 = None /\
  get_cart Demo.u1 Demo.catalog
  = (Ok {| CartView.items := []; CartView.total := Int 0 |}, Demo.catalog).
Proof.
  assert (H : cart_of Demo.catalog Demo.u1 = None) by reflexivity.
  split; [exact H|].
  exact (get_cart_without_cart Demo.catalog Demo.u1 H).
Defined.

(** The cart of [u1] in [stale_db]: a widget, and a product that is gone. *)
Lemma get_cart_view_witness :
  wellformed_ids
    [ {| CartItem.product_id := Demo.p1; CartItem.quantity := 1 |};
      {| CartItem.product_id := Demo.p_gone; CartItem.quantity := 2 |} ] /\
  exists lines,
    get_cart Demo.u1 Demo.stale_db
    = (Ok {| CartView.items := lines;
             CartView.total := Float (Py.round2 (fsum (map line_amount lines))) |},
       Demo.stale_db) /\
    lines
    = cart_lines Demo.stale_db
        [ {| CartItem.product_id := Demo.p1; CartItem.quantity := 1 |};
          {| CartItem.product_id := Demo.p_gone; CartItem.quantity := 2 |} ] /\
    (forall line,
       In line lines <->
       exists item prod,
         In item
           [ {| CartItem.product_id := Demo.p1; CartItem.quantity := 1 |};
             {| CartItem.product_id := Demo.p_gone; CartItem.quantity := 2 |} ] /\
         resolve Demo.stale_db (CartItem.product_id item) = Some prod /\
         line = cart_line item prod).
Proof.
  assert (H : wellformed_ids
    [ {| CartItem.product_id := Demo.p1; CartItem.quantity := 1 |};
      {| CartItem.product_id := Demo.p_gone; CartItem.quantity := 2 |} ]).
  { repeat constructor; vm_compute; discriminate. }
  split; [exact H|].
  exact (get_cart_view Demo.stale_db Demo.u1
           {| _id := 1%N;
              fields :=
                {| Cart.user_id := Demo.u1;
                   Cart.items :=
                     [ {| CartItem.product_id := Demo.p1; CartItem.quantity := 1 |};
                       {| CartItem.product_id := Demo.p_gone;
                          CartItem.quantity := 2 |} ] |} |}
           eq_refl H).
Defined.

(** The view of that cart: the widget alone, and its price as total. *)
Example scenario_stale_cart_view :
  get_cart Demo.u1 Demo.stale_db
  = (Ok {| CartView.items :=
             [ {| CartLine.product_id := Demo.p1;
                  CartLine.title := "Widget";
                  CartLine.price := 10%float;
                  CartLine.quantity := 1;
                  CartLine.image_url := None;
                  CartLine.subtotal := 10%float |} ];
           CartView.total := Float 10%float |},
     Demo.stale_db).
Proof. vm_compute. reflexivity. Qed.

(** Alice signs up, then signs in: the token is the same. *)
Lemma auth_token_deterministic_witness :
  (credentials (Signup Demo.alice_up) = credentials (Signin Demo.alice_in) /\
   run_auth SHA256.hexdigest Demo.environ (Signup Demo.alice_up) Demo.catalog
   = (Ok Demo.alice_auth, Demo.alice_db) /\
   run_auth SHA256.hexdigest Demo.environ (Signin Demo.alice_in) Demo.alice_db
   = (Ok Demo.alice_auth, Demo.alice_db)) /\
  AuthResponse.token Demo.alice_auth = AuthResponse.token Demo.alice_auth.
Proof.
  assert (H0 : credentials (Signup Demo.alice_up) = credentials (Signin Demo.alice_in))
    by reflexivity.
  assert (H1 : run_auth SHA256.hexdigest Demo.environ (Signup Demo.alice_up) Demo.catalog
               = (Ok Demo.alice_auth, Demo.alice_db)) by (vm_compute; reflexivity).
  assert (H2 : run_auth SHA256.hexdigest Demo.environ (Signin Demo.alice_in) Demo.alice_db
               = (Ok Demo.alice_auth, Demo.alice_db)) by (vm_compute; reflexivity).
  split; [auto|].
  exact (auth_token_deterministic SHA256.hexdigest Demo.environ
           (Signup Demo.alice_up) (Signin Demo.alice_in)
           Demo.catalog Demo.alice_db Demo.alice_auth Demo.alice_auth
           Demo.alice_db Demo.alice_db H0 H1 H2).
Defined.

(** C6 fails on the code: a request with a negative quantity for a
    product that is already in the cart is accepted, and leaves a stored
    item with a quantity below 1; so does one for a product that is not
    yet in an existing cart. *)
Theorem add_to_cart_negative_quantity :
  add_to_cart (Demo.add Demo.u1 Demo.p1 (-5))
    (run_add_to_cart [Demo.add Demo.u1 Demo.p1 1] Demo.catalog)
  = (Ok {| OkResponse.ok := true |},
     run_add_to_cart [Demo.add Demo.u1 Demo.p1 1; Demo.add Demo.u1 Demo.p1 (-5)]
       Demo.catalog) /\
  items_of
    (run_add_to_cart [Demo.add Demo.u1 Demo.p1 1; Demo.add Demo.u1 Demo.p1 (-5)]
       Demo.catalog) Demo.u1
  = [{| CartItem.product_id := Demo.p1; CartItem.quantity := -4 |}] /\
  items_of
    (run_add_to_cart [Demo.add Demo.u1 Demo.p1 1; Demo.add Demo.u1 Demo.p2 (-3)]
       Demo.catalog) Demo.u1
  = [{| CartItem.product_id := Demo.p1; CartItem.quantity := 1 |};
     {| CartItem.product_id := Demo.p2; CartItem.quantity := -3 |}] /\
  add_to_cart (Demo.add Demo.u1 Demo.p1 (-5)) Demo.catalog
  = (Raise (Uncaught "ValidationError"), Demo.catalog).
Proof. repeat split; vm_compute; reflexivity. Qed.

(** Signing up twice with one email fails the second time, and a wrong
    password is refused. *)
Example scenario_auth_failures :
  fst (signup SHA256.hexdigest Demo.environ Demo.alice_up Demo.alice_db)
  = Raise (HTTPException 400 "Email already registered") /\
  fst (signin SHA256.hexdigest Demo.environ Demo.alice_wrong Demo.alice_db)
  = Raise (HTTPException 401 "Invalid credentials").
Proof. split; vm_compute; reflexivity. Qed.

End Instances.

(* ------------------------------------------------------------------ *)
(** ** Further properties: accounts *)

Section Accounts.

Context {O : ObjectIdT}.

Variable sha256_hexdigest : str -> str.
Variable environ : str -> option str.

(** What [signup] does, by whether the email is registered. *)
Lemma signup_cases payload db :
  signup sha256_hexdigest environ payload db
  = match user_of db (SignUpRequest.email payload) with
    | Some _ => (Raise (HTTPException 400 "Email already registered"), db)
    | None =>
        (Ok {| AuthResponse.user_id :=
                 ObjectId_to_str (ObjectId_new (map _id (user_docs db)));
               AuthResponse.name := SignUpRequest.name payload;
               AuthResponse.email := SignUpRequest.email payload;
               AuthResponse.token :=
                 hash_password sha256_hexdigest environ
                   (SignUpRequest.email payload ++ ":" ++
                    SignUpRequest.password payload)%string |},
         {| user_docs :=
              user_docs db ++
              [{| _id := ObjectId_new (map _id (user_docs db));
                  fields :=
                    {| User.name := SignUpRequest.name payload;
                       User.email := SignUpRequest.email payload;
                       User.password_hash :=
                         hash_password sha256_hexdigest environ
                           (SignUpRequest.password payload);
                       User.is_active := true;
                       User.role := "user" |} |}];
            product_docs := product_docs db;
            cart_docs := cart_docs db;
            order_docs := order_docs db |})
    end.
Proof.
  unfold signup, user_of. unfold_M. simpl.
  destruct (find _ (user_docs db)); reflexivity.
Qed.

(** What [signin] does, by the user registered under the email. *)
Lemma signin_cases payload db :
  signin sha256_hexdigest environ payload db
  = match user_of db (SignInRequest.email payload) with
    | Some user =>
        if String.eqb (User.password_hash (fields user))
             (hash_password sha256_hexdigest environ (SignInRequest.password payload))
        then
          (Ok {| AuthResponse.user_id := ObjectId_to_str (_id user);
                 AuthResponse.name := User.name (fields user);
                 AuthResponse.email := User.email (fields user);
                 AuthResponse.token :=
                   hash_password sha256_hexdigest environ
                     (SignInRequest.email payload ++ ":" ++
                      SignInRequest.password payload)%string |}, db)
        else (Raise (HTTPException 401 "Invalid credentials"), db)
    | None => (Raise (HTTPException 401 "Invalid credentials"), db)
    end.
Proof.
  unfold signin, user_of. unfold_M. simpl.
  destruct (find _ (user_docs db)) as [user|]; [|reflexivity].
  destruct (String.eqb _ _); reflexivity.
Qed.

Lemma user_of_none_not_in db email :
  user_of db email = None ->
  ~ In email (map (fun d => User.email (fields d)) (user_docs db)).
Proof.
  unfold user_of. intros Hnone Hin. apply in_map_iff in Hin.
  destruct Hin as [d [Heq Hd]].
  apply (find_none _ _ Hnone) in Hd. simpl in Hd.
  rewrite Heq, String.eqb_refl in Hd. discriminate.
Qed.

Lemma find_app_last {A} (filter : A -> bool) (l : list A) (x : A) :
  find filter l = None -> filter x = true -> find filter (l ++ [x]) = Some x.
Proof.
  intros Hnone Hx. induction l as [|h t IH]; simpl in *.
  - rewrite Hx. reflexivity.
  - destruct (filter h); [discriminate | auto].
Qed.


(** X2: a [signup] that succeeds adds one user document, after the
    others, with the name and the email of the request, the digest of the
    password, active and of role "user"; it returns the key of that
    document, and leaves products, carts and orders as they were. *)
Theorem signup_adds_user payload db r db' :
  signup sha256_hexdigest environ payload db = (Ok r, db') ->
  exists user,
    user_docs db' = user_docs db ++ [user] /\
    User.name (fields user) = SignUpRequest.name payload /\
    User.email (fields user) = SignUpRequest.email payload /\
    User.password_hash (fields user)
    = hash_password sha256_hexdigest environ (SignUpRequest.password payload) /\
    User.is_active (fields user) = true /\
    User.role (fields user) = "user" /\
    AuthResponse.user_id r = ObjectId_to_str (_id user) /\
    product_docs db' = product_docs db /\
    cart_docs db' = cart_docs db /\
    order_docs db' = order_docs db.
Proof.
  rewrite signup_cases.
  destruct (user_of db (SignUpRequest.email payload)); [discriminate|].
  intros H. inversion H; subst; clear H. eexists. simpl.
  repeat split; reflexivity.
Qed.

(** X3: [signup] keeps the emails of the users distinct, whatever it
    answers. *)
Theorem signup_keeps_emails_unique payload db :
  emails_unique db ->
  emails_unique (snd (signup sha256_hexdigest environ payload db)).
Proof.
  unfold emails_unique. intros Hnd. rewrite signup_cases.
  destruct (user_of db (SignUpRequest.email payload)) eqn:Huser; simpl; [exact Hnd|].
  rewrite map_app. simpl.
  apply NoDup_app; [exact Hnd | repeat constructor; intros [] |].
  intros email Hin [<- | []].
  exact (user_of_none_not_in _ _ Huser Hin).
Qed.

(** X4: after a [signup] that succeeded, [signin] with the same email
    and password succeeds, returns the same answer as the signup (user
    id, name, email and token) and leaves the store as it is. *)
Theorem signup_then_signin payload db r db' :
  signup sha256_hexdigest environ payload db = (Ok r, db') ->
  signin sha256_hexdigest environ (signin_of payload) db' = (Ok r, db').
Proof.
  rewrite signup_cases.
  destruct (user_of db (SignUpRequest.email payload)) eqn:Huser; [discriminate|].
  intros H. inversion H; subst; clear H.
  rewrite signin_cases. unfold user_of in *. simpl.
  rewrite (find_app_last _ _ _ Huser) by (simpl; apply String.eqb_refl).
  simpl. rewrite String.eqb_refl. reflexivity.
Qed.


(** X6: [signin] succeeds exactly when the first user registered under
    the email has the digest of the password as password hash; it then
    returns the key, the name and the email of that user. *)
Theorem signin_succeeds_iff payload db r db' :
  signin sha256_hexdigest environ payload db = (Ok r, db') <->
  db' = db /\
  exists user,
    user_of db (SignInRequest.email payload) = Some user /\
    User.password_hash (fields user)
    = hash_password sha256_hexdigest environ (SignInRequest.password payload) /\
    r = {| AuthResponse.user_id := ObjectId_to_str (_id user);
           AuthResponse.name := User.name (fields user);
           AuthResponse.email := User.email (fields user);
           AuthResponse.token :=
             hash_password sha256_hexdigest environ
               (SignInRequest.email payload ++ ":" ++
                SignInRequest.password payload)%string |}.
Proof.
  rewrite signin_cases.
  destruct (user_of db (SignInRequest.email payload)) as [user|].
  - destruct (String.eqb_spec (User.password_hash (fields user))
                (hash_password sha256_hexdigest environ
                   (SignInRequest.password payload))) as [Hh|Hh].
    + split.
      * intros H. inversion H; subst. split; [reflexivity|]. eauto.
      * intros [-> (user' & Hu & _ & ->)]. inversion Hu; subst. reflexivity.
    + split; [discriminate|].
      intros [_ (user' & Hu & Hh' & _)]. inversion Hu; subst. contradiction.
  - split; [discriminate|]. intros [_ (user' & Hu & _)]. discriminate.
Qed.

End Accounts.

(* ------------------------------------------------------------------ *)
(** ** Further properties: the cart *)

Section CartStore.

Context {O : ObjectIdT}.

(** What a call of [add_to_cart] does to the store: only the cart
    collection can change, by a new cart for a user without one or by
    new items in the cart of the user. *)
Lemma add_to_cart_effect payload db :
  user_docs (snd (add_to_cart payload db)) = user_docs db /\
  product_docs (snd (add_to_cart payload db)) = product_docs db /\
  order_docs (snd (add_to_cart payload db)) = order_docs db /\
  (cart_docs (snd (add_to_cart payload db)) = cart_docs db \/
   (cart_of db (AddToCartRequest.user_id payload) = None /\
    cart_docs (snd (add_to_cart payload db))
    = cart_docs db ++
      [{| _id := ObjectId_new (map _id (cart_docs db));
          fields :=
            {| Cart.user_id := AddToCartRequest.user_id payload;
               Cart.items :=
                 [{| CartItem.product_id := AddToCartRequest.product_id payload;
                     CartItem.quantity := AddToCartRequest.quantity payload |}] |} |}]) \/
   (exists cart,
      cart_of db (AddToCartRequest.user_id payload) = Some cart /\
      cart_docs (snd (add_to_cart payload db))
      = update_first (fun d => ObjectId_eqb (_id d) (_id cart))
          (fun c => {| Cart.user_id := Cart.user_id c;
                       Cart.items := add_item (Cart.items (fields cart)) payload |})
          (cart_docs db))).
Proof.
  unfold add_to_cart, cart_of. unfold_M. simpl.
  destruct (ObjectId_of_str (AddToCartRequest.user_id payload));
    [|simpl; repeat split; left; reflexivity].
  simpl.
  destruct (ObjectId_of_str (AddToCartRequest.product_id payload));
    [|simpl; repeat split; left; reflexivity].
  simpl. destruct (find _ (product_docs db));
    [|simpl; repeat split; left; reflexivity].
  destruct (find _ (cart_docs db)) as [cart|] eqn:Hcart.
  - assert (Hitems :
      (let '(items, updated) :=
         add_to_cart_loop (Cart.items (fields cart)) payload false in
       if negb updated
       then items ++
            [{| CartItem.product_id := AddToCartRequest.product_id payload;
                CartItem.quantity := AddToCartRequest.quantity payload |}]
       else items)
      = add_item (Cart.items (fields cart)) payload) by reflexivity.
    destruct (add_to_cart_loop (Cart.items (fields cart)) payload false)
      as [items updated]. simpl. rewrite Hitems.
    destruct (items_int64 _); simpl; repeat split.
    + right. right. exists cart. split; reflexivity.
    + left. reflexivity.
  - unfold CartSchema, CartSchema_items, CartItemSchema.
    destruct (1 <=? AddToCartRequest.quantity payload); simpl;
      [|repeat split; left; reflexivity].
    match goal with
    | |- context [if ?fits then _ else _] => destruct fits
    end; simpl; repeat split.
    + right. left. split; reflexivity.
    + left. reflexivity.
Qed.

Lemma update_first_user_ids filter (items : list CartItem.t) (l : list (Doc Cart.t)) :
  map (fun d => Cart.user_id (fields d))
    (update_first filter
       (fun c => {| Cart.user_id := Cart.user_id c; Cart.items := items |}) l)
  = map (fun d => Cart.user_id (fields d)) l.
Proof.
  induction l as [|d rest IH]; simpl; [reflexivity|].
  destruct (filter d); simpl; congruence.
Qed.

Lemma cart_of_none_not_in db user_id :
  cart_of db user_id = None ->
  ~ In user_id (map (fun d => Cart.user_id (fields d)) (cart_docs db)).
Proof.
  unfold cart_of. intros Hnone Hin. apply in_map_iff in Hin.
  destruct Hin as [d [Heq Hd]].
  apply (find_none _ _ Hnone) in Hd. simpl in Hd.
  rewrite Heq, String.eqb_refl in Hd. discriminate.
Qed.

(** X7: [add_to_cart] keeps at most one cart per user id, whatever it
    answers: it adds a cart only for a user that has none. *)
Theorem add_to_cart_keeps_one_cart_per_user payload db :
  one_cart_per_user db ->
  one_cart_per_user (snd (add_to_cart payload db)).
Proof.
  unfold one_cart_per_user. intros Hnd.
  destruct (add_to_cart_effect payload db)
    as (_ & _ & _ & [-> | [[Hnone ->] | [cart [_ ->]]]]).
  - exact Hnd.
  - rewrite map_app. simpl.
    apply NoDup_app; [exact Hnd | repeat constructor; intros [] |].
    intros u Hin [<- | []]. exact (cart_of_none_not_in _ _ Hnone Hin).
  - rewrite update_first_user_ids. exact Hnd.
Qed.

(** The first cart of a user is not affected by an update of the first
    cart of another user. *)
Lemma find_update_first_other (u u' : str) (items : list CartItem.t)
  (l : list (Doc Cart.t)) :
  u <> u' ->
  find (fun d => String.eqb (Cart.user_id (fields d)) u')
    (update_first (fun d => String.eqb (Cart.user_id (fields d)) u)
       (fun c => {| Cart.user_id := Cart.user_id c; Cart.items := items |}) l)
  = find (fun d => String.eqb (Cart.user_id (fields d)) u') l.
Proof.
  intros Hne. induction l as [|d rest IH]; simpl; [reflexivity|].
  destruct (String.eqb_spec (Cart.user_id (fields d)) u) as [Hu|Hu]; simpl.
  - rewrite Hu. rewrite (proj2 (String.eqb_neq u u') Hne). reflexivity.
  - destruct (String.eqb (Cart.user_id (fields d)) u'); [reflexivity | exact IH].
Qed.

Lemma find_app_other {A} (filter : A -> bool) (l : list A) (x : A) :
  filter x = false -> find filter (l ++ [x]) = find filter l.
Proof.
  intros Hx. induction l as [|h t IH]; simpl.
  - rewrite Hx. reflexivity.
  - destruct (filter h); [reflexivity | exact IH].
Qed.

(** The loop of [get_cart] raises 400 "Invalid id" on a malformed id. *)
Lemma get_cart_loop_malformed cart_items : forall items total db,
  ~ wellformed_ids cart_items ->
  get_cart_loop cart_items items total db
  = (Raise (HTTPException 400 "Invalid id"), db).
Proof.
  induction cart_items as [|item rest IH]; intros items total db Hbad.
  - exfalso. apply Hbad. constructor.
  - simpl. unfold_M. simpl.
    destruct (ObjectId_of_str (CartItem.product_id item)) as [o|] eqn:Ho;
      [|reflexivity].
    assert (Hrest : ~ wellformed_ids rest).
    { intros Hwf. apply Hbad. constructor; [congruence | exact Hwf]. }
    simpl. destruct (find _ (product_docs db)); apply IH; exact Hrest.
Qed.

(** X8: [get_cart] never changes the store, whatever it answers. *)
Theorem get_cart_only_reads user_id db :
  snd (get_cart user_id db) = db.
Proof.
  unfold get_cart. unfold_M. simpl.
  destruct (find _ (cart_docs db)) as [cart|]; [|reflexivity].
  pose proof (get_cart_loop_reads (Cart.items (fields cart)) [] PrimFloat.zero db) as H.
  destruct (get_cart_loop (Cart.items (fields cart)) [] PrimFloat.zero db)
    as [[[items total]|e] db1]; exact H.
Qed.

(** X9: when an item of the cart has a product id that is not a
    well-formed id, [get_cart] fails with 400 "Invalid id" instead of
    leaving the item out. *)
Theorem get_cart_malformed_id user_id db cart :
  cart_of db user_id = Some cart ->
  ~ wellformed_ids (Cart.items (fields cart)) ->
  get_cart user_id db = (Raise (HTTPException 400 "Invalid id"), db).
Proof.
  unfold cart_of, get_cart. intros Hcart Hbad. unfold_M. simpl. rewrite Hcart.
  rewrite (get_cart_loop_malformed _ [] PrimFloat.zero db Hbad). reflexivity.
Qed.

(** X10: for a user without a cart, after an [add_to_cart] with
    well-formed ids, a product that resolves and a quantity of at least
    1 that the store can hold (below 2^63), [get_cart] shows one line, for
    that product with its current title and price and the requested
    quantity, and the rounded subtotal as total. *)
Theorem add_to_cart_then_get_cart payload db prod :
  cart_of db (AddToCartRequest.user_id payload) = None ->
  ObjectId_of_str (AddToCartRequest.user_id payload) <> None ->
  resolve db (AddToCartRequest.product_id payload) = Some prod ->
  1 <= AddToCartRequest.quantity payload ->
  AddToCartRequest.quantity payload < 2 ^ 63 ->
  exists db',
    add_to_cart payload db = (Ok {| OkResponse.ok := true |}, db') /\
    get_cart (AddToCartRequest.user_id payload) db'
    = (Ok {| CartView.items :=
               [cart_line
                  {| CartItem.product_id := AddToCartRequest.product_id payload;
                     CartItem.quantity := AddToCartRequest.quantity payload |}
                  prod];
             CartView.total :=
               Float (Py.round2
                        (PrimFloat.add PrimFloat.zero
                           (PrimFloat.mul (Product.price (fields prod))
                              (Py.float_of_int
                                 (AddToCartRequest.quantity payload))))) |},
       db').
Proof.
  unfold cart_of, resolve. intros Hcart Hu Hres Hq Hmax.
  assert (Hfit : int64 (AddToCartRequest.quantity payload) = true).
  { unfold int64. apply andb_true_iff.
    split; [apply Z.leb_le | apply Z.ltb_lt]; lia. }
  unfold add_to_cart, get_cart. unfold_M. simpl.
  destruct (ObjectId_of_str (AddToCartRequest.user_id payload)); [|congruence].
  destruct (ObjectId_of_str (AddToCartRequest.product_id payload)) as [po|] eqn:Hpo;
    [|discriminate].
  simpl. rewrite Hres, Hcart.
  unfold CartSchema, CartSchema_items, CartItemSchema.
  apply Z.leb_le in Hq. rewrite Hq. simpl. rewrite Hfit. simpl.
  eexists. split; [reflexivity|]. simpl.
  rewrite find_app_last by (simpl; auto using String.eqb_refl). simpl.
  unfold_M. simpl. rewrite Hpo. simpl. rewrite Hres. reflexivity.
Qed.

End CartStore.

Section CartKeys.

Context {O : ObjectIdT} {L : ObjectIdLaws O}.

(** X11: with unique cart keys, [add_to_cart] leaves the cart of every
    other user as it was, and never touches users, products or orders. *)
Theorem add_to_cart_leaves_other_carts payload db other :
  cart_ids_unique db ->
  other <> AddToCartRequest.user_id payload ->
  cart_of (snd (add_to_cart payload db)) other = cart_of db other /\
  user_docs (snd (add_to_cart payload db)) = user_docs db /\
  product_docs (snd (add_to_cart payload db)) = product_docs db /\
  order_docs (snd (add_to_cart payload db)) = order_docs db.
Proof.
  intros Hnd Hother.
  destruct (add_to_cart_effect payload db) as (Hu & Hp & Ho & Hcarts).
  split; [|auto]. unfold cart_of in *.
  destruct Hcarts as [-> | [[Hnone ->] | [cart [Hcart ->]]]].
  - reflexivity.
  - apply find_app_other. simpl. apply String.eqb_neq. congruence.
  - rewrite (update_first_by_id _ _ _ _ Hnd Hcart).
    apply find_update_first_other. congruence.
Qed.

(** X12: [add_to_cart] keeps the keys of the cart documents distinct,
    whatever it answers. *)
Theorem add_to_cart_keeps_keys_unique payload db :
  cart_ids_unique db ->
  cart_ids_unique (snd (add_to_cart payload db)).
Proof.
  unfold cart_ids_unique. intros Hnd.
  destruct (add_to_cart_effect payload db)
    as (_ & _ & _ & [-> | [[Hnone ->] | [cart [_ ->]]]]).
  - exact Hnd.
  - rewrite map_app. simpl.
    apply NoDup_app; [exact Hnd | repeat constructor; intros [] |].
    intros i Hin [<- | []]. exact (ObjectId_new_fresh _ Hin).
  - rewrite update_first_ids. exact Hnd.
Qed.

End CartKeys.

Section CartFailures.

Context {O : ObjectIdT}.

(** X13: whenever [add_to_cart] fails, the store is left as it was, and
    the failure is 400 "Invalid id", 404 "Product not found", the
    validation error of a new cart with a quantity below 1, or the
    OverflowError of a write with a quantity that does not fit 64 bits. *)
Theorem add_to_cart_failure payload db e db' :
  add_to_cart payload db = (Raise e, db') ->
  db' = db /\
  (e = HTTPException 400 "Invalid id" \/
   e = HTTPException 404 "Product not found" \/
   (e = Uncaught "ValidationError" /\
    AddToCartRequest.quantity payload < 1 /\
    cart_of db (AddToCartRequest.user_id payload) = None) \/
   (e = Uncaught "OverflowError" /\
    items_int64
      (add_item (items_of db (AddToCartRequest.user_id payload)) payload)
    = false)).
Proof.
  unfold add_to_cart, items_of, cart_of. unfold_M. simpl.
  destruct (ObjectId_of_str (AddToCartRequest.user_id payload)); simpl;
    [|intros H; inversion H; auto].
  destruct (ObjectId_of_str (AddToCartRequest.product_id payload)); simpl;
    [|intros H; inversion H; auto].
  destruct (find _ (product_docs db)); [|intros H; inversion H; auto].
  destruct (find _ (cart_docs db)) as [cart|].
  - cbv beta iota. unfold add_item.
    destruct (add_to_cart_loop (Cart.items (fields cart)) payload false)
      as [items updated] eqn:Hloop.
    destruct (items_int64 (if negb updated then _ else items)) eqn:Hfit; simpl;
      [discriminate|].
    intros Hrun. inversion Hrun.
    split; [reflexivity|]. right. right. right. split; reflexivity.
  - unfold CartSchema, CartSchema_items, CartItemSchema.
    destruct (Z.leb_spec 1 (AddToCartRequest.quantity payload)) as [Hq|Hq]; simpl.
    + unfold add_item, items_int64. simpl.
      destruct (int64 (AddToCartRequest.quantity payload)) eqn:Hfit; simpl;
        [discriminate|].
      intros Hrun. inversion Hrun.
      split; [reflexivity|]. right. right. right. split; reflexivity.
    + intros Hrun. inversion Hrun.
      split; [reflexivity|]. right. right. left. repeat split. exact Hq.
Qed.

(** A [checkout] that fails leaves the store as it was and answers 400. *)
Lemma checkout_raises random payload db e db' :
  checkout random payload db = (Raise e, db') ->
  db' = db /\
  exists detail,
    e = HTTPException 400 detail /\
    (detail = "Cart is empty" \/ detail = "Invalid id" \/
     detail = "Invalid product in cart").
Proof.
  unfold checkout. unfold_M. simpl.
  destruct (find _ (cart_docs db)) as [cart|];
    [|intros H; inversion H; eauto].
  destruct (Cart.items (fields cart)) as [|item rest] eqn:Hitems;
    [intros H; inversion H; eauto|].
  rewrite <- Hitems.
  assert (Hloop : forall cart_items items amount e1 db1,
    checkout_loop cart_items items amount db = (Raise e1, db1) ->
    db1 = db /\
    (e1 = HTTPException 400 "Invalid id" \/
     e1 = HTTPException 400 "Invalid product in cart")).
  { induction cart_items as [|i l IH]; intros items amount e1 db1; simpl.
    - discriminate.
    - unfold_M. simpl.
      destruct (ObjectId_of_str (CartItem.product_id i)); simpl;
        [|intros H; inversion H; auto].
      destruct (find _ (product_docs db)); [apply IH|intros H; inversion H; auto]. }
  destruct (checkout_loop (Cart.items (fields cart)) [] PrimFloat.zero db)
    as [[[items amount]|e1] db1] eqn:Hrun; [discriminate|].
  intros H. inversion H; subst.
  destruct (Hloop _ _ _ _ _ Hrun) as [-> [-> | ->]]; eauto 6.
Qed.

(** X14: whenever [checkout] fails, the store is left as it was (no
    order, no change of a cart) and the failure is an HTTPException of
    status 400: "Cart is empty", "Invalid id" or "Invalid product in
    cart". *)
Theorem checkout_failure random payload db e db' :
  checkout random payload db = (Raise e, db') ->
  db' = db /\
  status_code_of e = 400 /\
  (e = HTTPException 400 "Cart is empty" \/
   e = HTTPException 400 "Invalid id" \/
   e = HTTPException 400 "Invalid product in cart").
Proof.
  intros H. apply checkout_raises in H.
  destruct H as [-> (detail & -> & [-> | [-> | ->]])]; auto 6.
Qed.

End CartFailures.

(* ------------------------------------------------------------------ *)
(** ** Further properties: checkout *)

Section CheckoutOrders.

Context {O : ObjectIdT}.

(** The order items that the loop of [checkout] builds: one per cart
    item, from the product it resolves to. *)
Lemma checkout_loop_items cart_items : forall items amount db items' amount' db',
  checkout_loop cart_items items amount db = (Ok (items', amount'), db') ->
  exists new_items,
    items' = items ++ new_items /\
    Forall2 (fun item oi =>
               exists prod,
                 resolve db (CartItem.product_id item) = Some prod /\
                 oi = order_item item prod)
      cart_items new_items.
Proof.
  induction cart_items as [|item rest IH]; intros items amount db items' amount' db' H.
  - simpl in H. unfold ret in H. inversion H; subst.
    exists []. rewrite app_nil_r. split; [reflexivity | constructor].
  - destruct (resolve db (CartItem.product_id item)) as [prod|] eqn:Hres.
    + rewrite (checkout_loop_step _ _ _ _ _ _ Hres) in H.
      apply IH in H. destruct H as [new_items [-> HF]].
      eexists (_ :: new_items). rewrite <- app_assoc. simpl.
      split; [reflexivity|]. constructor; [|exact HF].
      exists prod. split; [exact Hres | reflexivity].
    + destruct (checkout_loop_stop item rest items amount db Hres) as [detail [Hd _]].
      rewrite Hd in H. discriminate.
Qed.

(** X15: the Order of a [checkout] that succeeds is for the user of the
    request, in "usd", and has one item per item of the cart, in cart
    order, each with the quantity of the cart item and the key, title and
    price of the product it resolves to at that time. *)
Theorem checkout_order_snapshot random payload db r db' :
  checkout random payload db = (Ok r, db') ->
  exists cart order,
    cart_of db (CheckoutRequest.user_id payload) = Some cart /\
    order_docs db' = order_docs db ++ [order] /\
    Order.user_id (fields order) = CheckoutRequest.user_id payload /\
    Order.currency (fields order) = "usd" /\
    CheckoutResponse.order_id r = ObjectId_to_str (_id order) /\
    CheckoutResponse.payment_ref r = payment_ref_of random /\
    Order.payment_ref (fields order) = Some (payment_ref_of random) /\
    Forall2 (fun item oi =>
               exists prod,
                 resolve db (CartItem.product_id item) = Some prod /\
                 oi = order_item item prod)
      (Cart.items (fields cart)) (Order.items (fields order)).
Proof.
  intros H.
  assert (Hr : CheckoutResponse.order_id r
               = ObjectId_to_str (ObjectId_new (map _id (order_docs db))) /\
               CheckoutResponse.payment_ref r = payment_ref_of random).
  { revert H. unfold checkout. unfold_M. simpl.
    destruct (find _ (cart_docs db)) as [cart|]; [|discriminate].
    destruct (Cart.items (fields cart)) as [|item rest] eqn:Hitems; [discriminate|].
    rewrite <- Hitems.
    pose proof (checkout_loop_reads (Cart.items (fields cart)) [] PrimFloat.zero db)
      as Hreads.
    destruct (checkout_loop (Cart.items (fields cart)) [] PrimFloat.zero db)
      as [[[items amount]|e] db1]; [|discriminate].
    simpl in Hreads. subst db1.
    simpl. intros H. inversion H; subst. split; reflexivity. }
  apply checkout_returns in H.
  destruct H as (cart & items & amount & Hcart & _ & Hloop & Horders & _).
  apply checkout_loop_items in Hloop. destruct Hloop as [new_items [-> HF]].
  exists cart. eexists. split; [exact Hcart|]. split; [exact Horders|].
  simpl. destruct Hr as [Hid Href]. repeat split; assumption.
Qed.

(** X16: whatever [checkout] answers, it leaves users and products as
    they were, keeps the orders there were (it adds at most one, after
    them), creates and deletes no cart document, and leaves the cart of
    every other user as it was. *)
Theorem checkout_leaves_others random payload db :
  user_docs (snd (checkout random payload db)) = user_docs db /\
  product_docs (snd (checkout random payload db)) = product_docs db /\
  (exists added,
     order_docs (snd (checkout random payload db)) = order_docs db ++ added /\
     (List.length added <= 1)%nat) /\
  map _id (cart_docs (snd (checkout random payload db))) = map _id (cart_docs db) /\
  forall other,
    other <> CheckoutRequest.user_id payload ->
    cart_of (snd (checkout random payload db)) other = cart_of db other.
Proof.
  destruct (checkout random payload db) as [[r|e] db'] eqn:H; simpl.
  - apply checkout_returns in H.
    destruct H as (cart & items & amount & _ & _ & _ & Horders & Hcarts & Hprod & Huser & _).
    repeat split; try assumption.
    + eexists. split; [exact Horders | simpl; lia].
    + rewrite Hcarts. clear. induction (cart_docs db) as [|d l IH]; simpl;
        [reflexivity|]. destruct (String.eqb _ _); simpl; congruence.
    + intros other Hother. unfold cart_of. rewrite Hcarts.
      apply find_update_first_other. congruence.
  - apply checkout_raises in H. destruct H as [-> _].
    repeat split. exists []. rewrite app_nil_r. split; [reflexivity | simpl; lia].
Qed.

Lemma line_subtotals_lines db items : forall subtotals,
  Forall2 (fun item s => line_subtotal db item = Some s) items subtotals ->
  wellformed_ids items /\
  map line_amount (cart_lines db items) = subtotals /\
  List.length (cart_lines db items) = List.length items.
Proof.
  induction items as [|item rest IH]; intros subtotals HF; inversion HF; subst.
  - repeat split. constructor.
  - destruct (IH _ H3) as (Hwf & Hmap & Hlen).
    unfold line_subtotal in H1. simpl.
    destruct (resolve db (CartItem.product_id item)) as [prod|] eqn:Hres;
      [|discriminate].
    inversion H1; subst. simpl. repeat split.
    + constructor; [|exact Hwf]. unfold resolve in Hres.
      destruct (ObjectId_of_str (CartItem.product_id item)); congruence.
    + f_equal. exact Hlen.
Qed.

(** X17: the amount that a successful [checkout] charges is the total
    that [get_cart] shows for the same user on the store before the
    checkout, and the cart view then has a line for every item of the
    cart. *)
Theorem checkout_charges_cart_total random payload db r db' :
  checkout random payload db = (Ok r, db') ->
  exists cart view,
    cart_of db (CheckoutRequest.user_id payload) = Some cart /\
    get_cart (CheckoutRequest.user_id payload) db = (Ok view, db) /\
    CartView.total view = Float (CheckoutResponse.amount r) /\
    List.length (CartView.items view) = List.length (Cart.items (fields cart)).
Proof.
  intros H. apply checkout_returns in H.
  destruct H as (cart & items & amount & Hcart & _ & Hloop & _ & _ & _ & _ & Hr).
  apply checkout_loop_returns in Hloop.
  destruct Hloop as [_ [new_items [_ [HF Hamount]]]].
  assert (HF' : Forall2 (fun item s => line_subtotal db item = Some s)
                  (Cart.items (fields cart)) (map OrderItem.subtotal new_items)).
  { clear - HF. induction HF as [|item oi l l' [Hs _] _ IH]; simpl;
      constructor; assumption. }
  destruct (line_subtotals_lines _ _ _ HF') as (Hwf & Hmap & Hlen).
  exists cart. eexists. split; [exact Hcart|].
  split; [apply get_cart_returns; [exact Hcart | exact Hwf]|]. simpl.
  split; [|exact Hlen].
  rewrite Hr, Hmap, Hamount. reflexivity.
Qed.

End CheckoutOrders.

Section CheckoutOutcome.

Context {O : ObjectIdT}.

Lemma checkout_loop_all_resolve cart_items : forall items amount db,
  Forall (fun item => resolve db (CartItem.product_id item) <> None) cart_items ->
  exists items' amount',
    checkout_loop cart_items items amount db = (Ok (items', amount'), db).
Proof.
  induction cart_items as [|item rest IH]; intros items amount db Hall.
  - simpl. unfold ret. eauto.
  - inversion Hall as [|? ? Hitem Hrest]; subst.
    destruct (resolve db (CartItem.product_id item)) as [prod|] eqn:Hres;
      [|congruence].
    rewrite (checkout_loop_step _ _ _ _ _ _ Hres). apply IH. exact Hrest.
Qed.

(** X18: [checkout] succeeds exactly when the user has a cart with at
    least one item and the product id of every item resolves to a
    Product. *)
Theorem checkout_succeeds_iff random payload db :
  (exists r db', checkout random payload db = (Ok r, db')) <->
  exists cart,
    cart_of db (CheckoutRequest.user_id payload) = Some cart /\
    Cart.items (fields cart) <> [] /\
    Forall (fun item => resolve db (CartItem.product_id item) <> None)
      (Cart.items (fields cart)).
Proof.
  split.
  - intros (r & db' & H). apply checkout_returns in H.
    destruct H as (cart & items & amount & Hcart & Hne & Hloop & _).
    exists cart. repeat split; try assumption.
    apply checkout_loop_returns in Hloop. destruct Hloop as [_ [new_items [_ [HF _]]]].
    clear - HF. induction HF as [|item oi l l' [Hs _] _ IH]; constructor; [|exact IH].
    unfold line_subtotal in Hs.
    destruct (resolve db (CartItem.product_id item)); congruence.
  - intros (cart & Hcart & Hne & Hall).
    destruct (checkout_loop_all_resolve _ [] PrimFloat.zero db Hall)
      as (items & amount & Hloop).
    unfold cart_of in Hcart. unfold checkout. unfold_M. simpl. rewrite Hcart.
    destruct (Cart.items (fields cart)) as [|item rest] eqn:Hitems; [congruence|].
    rewrite Hloop. simpl. eauto.
Qed.

(** X19: [add_to_cart] succeeds exactly when both ids are well-formed,
    the product id resolves, either the user already has a cart or the
    quantity is at least 1 (the quantity is only validated when a new
    cart is made), and every quantity to write fits 64 bits. *)
Theorem add_to_cart_succeeds_iff payload db :
  (exists r db', add_to_cart payload db = (Ok r, db')) <->
  ObjectId_of_str (AddToCartRequest.user_id payload) <> None /\
  resolve db (AddToCartRequest.product_id payload) <> None /\
  (cart_of db (AddToCartRequest.user_id payload) <> None \/
   1 <= AddToCartRequest.quantity payload) /\
  items_int64
    (add_item (items_of db (AddToCartRequest.user_id payload)) payload) = true.
Proof.
  unfold add_to_cart, resolve, items_of, cart_of. unfold_M. simpl.
  destruct (ObjectId_of_str (AddToCartRequest.user_id payload)); simpl;
    [|split; [intros (r & db' & H); discriminate | intros [H _]; congruence]].
  destruct (ObjectId_of_str (AddToCartRequest.product_id payload)); simpl;
    [|split; [intros (r & db' & H); discriminate | intros [_ [H _]]; congruence]].
  destruct (find _ (product_docs db));
    [|split; [intros (r & db' & H); discriminate | intros [_ [H _]]; congruence]].
  destruct (find _ (cart_docs db)) as [cart|].
  - cbv beta iota. unfold add_item.
    destruct (add_to_cart_loop (Cart.items (fields cart)) payload false)
      as [items updated] eqn:Hloop.
    destruct (items_int64 (if negb updated then _ else items)) eqn:Hfit; simpl.
    + split; [intros _ | intros _; eauto].
      repeat split; try discriminate. left. discriminate.
    + split; [intros (r & db' & H); discriminate|].
      intros (_ & _ & _ & H). discriminate.
  - unfold CartSchema, CartSchema_items, CartItemSchema.
    destruct (Z.leb_spec 1 (AddToCartRequest.quantity payload)) as [Hq|Hq]; simpl.
    + unfold add_item, items_int64. simpl.
      destruct (int64 (AddToCartRequest.quantity payload)) eqn:Hfit; simpl.
      * split; [intros _ | intros _; eauto].
        repeat split; try discriminate. right. exact Hq.
      * split; [intros (r & db' & H); discriminate|].
        intros (_ & _ & _ & H). discriminate.
    + split; [intros (r & db' & H); discriminate|].
      intros (_ & _ & [H | H] & _); [congruence | lia].
Qed.

End CheckoutOutcome.

Section CheckoutKeys.

Context {O : ObjectIdT} {L : ObjectIdLaws O}.

(** X20: [checkout] keeps the keys of the cart documents distinct, the
    keys of the order documents distinct, and at most one cart per user
    id, whatever it answers. *)
Theorem checkout_keeps_store_invariants random payload db :
  cart_ids_unique db ->
  order_ids_unique db ->
  one_cart_per_user db ->
  cart_ids_unique (snd (checkout random payload db)) /\
  order_ids_unique (snd (checkout random payload db)) /\
  one_cart_per_user (snd (checkout random payload db)).
Proof.
  unfold cart_ids_unique, order_ids_unique, one_cart_per_user.
  intros Hcarts Horders Husers.
  destruct (checkout random payload db) as [[r|e] db'] eqn:H; simpl.
  - apply checkout_returns in H.
    destruct H as (cart & items & amount & _ & _ & _ & Ho & Hc & _).
    rewrite Ho, Hc. repeat split.
    + rewrite update_first_ids. exact Hcarts.
    + rewrite map_app. simpl.
      apply NoDup_app; [exact Horders | repeat constructor; intros [] |].
      intros i Hin [<- | []]. exact (ObjectId_new_fresh _ Hin).
    + rewrite update_first_user_ids. exact Husers.
  - apply checkout_raises in H. destruct H as [-> _]. auto.
Qed.

End CheckoutKeys.

Section PaymentReference.

Lemma hex_value_upper_hexdigit (n : N) :
  (n < 16)%N -> Reference.hex_value (Py.upper_ascii (Py.hexdigit n)) = Some n.
Proof.
  intros Hn. destruct n as [|p]; [reflexivity|].
  do 4 (destruct p as [p|p|]; try reflexivity); lia.
Qed.

(** Two bytes with the same two upper-case hexadecimal digits are equal. *)
Lemma byte_hex_digits_inj (b b' : byte) :
  Py.upper_ascii (Py.hexdigit (Byte.to_N b / 16))
  = Py.upper_ascii (Py.hexdigit (Byte.to_N b' / 16)) ->
  Py.upper_ascii (Py.hexdigit (Byte.to_N b mod 16))
  = Py.upper_ascii (Py.hexdigit (Byte.to_N b' mod 16)) ->
  b = b'.
Proof.
  intros Hhi Hlo.
  pose proof (Byte.to_N_bounded b) as Hb. pose proof (Byte.to_N_bounded b') as Hb'.
  apply (f_equal Reference.hex_value) in Hhi, Hlo.
  rewrite !hex_value_upper_hexdigit in Hhi, Hlo
    by (try (apply N.mod_lt; discriminate);
        apply N.Div0.div_lt_upper_bound; lia).
  inversion Hhi as [Hhi']. inversion Hlo as [Hlo'].
  assert (Hn : Byte.to_N b = Byte.to_N b').
  { rewrite (N.div_mod (Byte.to_N b) 16), (N.div_mod (Byte.to_N b') 16) by discriminate.
    rewrite Hhi', Hlo'. reflexivity. }
  pose proof (Byte.of_to_N b) as H1. pose proof (Byte.of_to_N b') as H2.
  rewrite Hn in H1. congruence.
Qed.

(** X21: the payment reference tells the random bytes it was made of:
    two checkouts get the same reference only from the same four random
    bytes. *)
Theorem payment_ref_injective (random random' : urandom4) :
  payment_ref_of random = payment_ref_of random' -> random = random'.
Proof.
  destruct random as [[[b0 b1] b2] b3], random' as [[[c0 c1] c2] c3].
  unfold payment_ref_of. cbn [bytes_of_urandom4 Py.bytes_hex Py.upper String.append].
  intros H. inversion H as [[H0 H0' H1 H1' H2 H2' H3 H3']].
  rewrite (byte_hex_digits_inj _ _ H0 H0'), (byte_hex_digits_inj _ _ H1 H1'),
    (byte_hex_digits_inj _ _ H2 H2'), (byte_hex_digits_inj _ _ H3 H3').
  reflexivity.
Qed.

End PaymentReference.

(* ------------------------------------------------------------------ *)
(** ** Further properties: the catalog and the schemas *)

Section Catalog.

Context {O : ObjectIdT} {L : ObjectIdLaws O}.

Lemma find_app_found {A} (filter : A -> bool) (l l' : list A) (x : A) :
  find filter l = Some x -> find filter (l ++ l') = Some x.
Proof.
  induction l as [|h t IH]; simpl; [discriminate|].
  destruct (filter h); auto.
Qed.

Lemma find_key_fresh {A} (l : list (Doc A)) (key : ObjectId) :
  ~ In key (map _id l) ->
  find (fun d => ObjectId_eqb (_id d) key) l = None.
Proof.
  induction l as [|d rest IH]; simpl; intros Hnin; [reflexivity|].
  rewrite ObjectId_eqb_neq by (intros Heq; apply Hnin; left; exact Heq).
  apply IH. intros Hin. apply Hnin. right. exact Hin.
Qed.

Lemma in_firstn {A} (n : nat) (l : list A) (x : A) :
  In x (firstn n l) -> In x l.
Proof.
  revert l. induction n as [|n IH]; intros [|h t]; simpl; try tauto.
  intros [H | H]; [left; exact H | right; apply IH; exact H].
Qed.

(** X22: [create_product] adds the product under a new key and returns
    that key as a string; when that string parses back to the key, the
    returned id resolves to the new product, every id that resolved
    before resolves to the same product as before, and users, carts and
    orders are as they were. *)
Theorem create_product_resolves product db :
  ObjectId_of_str (ObjectId_to_str (ObjectId_new (map _id (product_docs db))))
  = Some (ObjectId_new (map _id (product_docs db))) ->
  exists r db',
    create_product product db = (Ok r, db') /\
    resolve db' (IdResponse.id r)
    = Some {| _id := ObjectId_new (map _id (product_docs db)); fields := product |} /\
    (forall product_id prod,
       resolve db product_id = Some prod -> resolve db' product_id = Some prod) /\
    user_docs db' = user_docs db /\
    cart_docs db' = cart_docs db /\
    order_docs db' = order_docs db.
Proof.
  intros Hparse. unfold create_product. unfold_M. simpl.
  eexists _, _. split; [reflexivity|]. unfold resolve. simpl.
  rewrite Hparse. repeat split.
  - apply find_app_last.
    + apply find_key_fresh. apply ObjectId_new_fresh.
    + simpl. apply ObjectId_eqb_refl.
  - intros product_id prod.
    destruct (ObjectId_of_str product_id); [|discriminate].
    apply find_app_found.
Qed.

Lemma list_products_eq db :
  list_products db
  = (Ok (map (fun d => Some {| Serialized.id := ObjectId_to_str (_id d);
                               Serialized.doc := fields d |})
           (firstn 100 (product_docs db))), db).
Proof. reflexivity. Qed.

(** X23: [list_products] returns, without changing the store, the first
    100 products in store order, each with its key as the string "id":
    never more than 100, and all of them when there are at most 100. *)
Theorem list_products_page db :
  exists listed,
    list_products db = (Ok listed, db) /\
    listed
    = map (fun d => Some {| Serialized.id := ObjectId_to_str (_id d);
                            Serialized.doc := fields d |})
        (firstn 100 (product_docs db)) /\
    (List.length listed <= 100)%nat /\
    ((List.length (product_docs db) <= 100)%nat ->
     List.length listed = List.length (product_docs db)).
Proof.
  eexists. split; [apply list_products_eq|]. split; [reflexivity|].
  rewrite length_map. split.
  - apply firstn_le_length.
  - intros Hle. rewrite firstn_all2 by exact Hle. reflexivity.
Qed.

(** X24: when the keys of the products print to strings that parse back
    to them, every id that [list_products] returns resolves to a product
    with that id: [add_to_cart] does not answer 404 for a listed id. *)
Theorem list_products_ids_resolve db listed entry :
  Forall (fun d => ObjectId_of_str (ObjectId_to_str (_id d)) = Some (_id d))
    (product_docs db) ->
  list_products db = (Ok listed, db) ->
  In (Some entry) listed ->
  exists prod,
    resolve db (Serialized.id entry) = Some prod /\
    ObjectId_to_str (_id prod) = Serialized.id entry.
Proof.
  intros Hparse Hlist Hin.
  assert (Hl : listed
               = map (fun d => Some {| Serialized.id := ObjectId_to_str (_id d);
                                       Serialized.doc := fields d |})
                   (firstn 100 (product_docs db)))
    by (rewrite list_products_eq in Hlist; congruence).
  rewrite Hl in Hin. clear Hl Hlist.
  apply in_map_iff in Hin. destruct Hin as [d [Hd Hin]].
  assert (Hentry : entry = {| Serialized.id := ObjectId_to_str (_id d);
                              Serialized.doc := fields d |}) by congruence.
  rewrite Hentry. clear Hd Hentry. cbn [Serialized.id].
  apply in_firstn in Hin.
  rewrite Forall_forall in Hparse. unfold resolve. rewrite (Hparse d Hin).
  destruct (find (fun x => ObjectId_eqb (_id x) (_id d)) (product_docs db))
    as [prod|] eqn:Hfind.
  - exists prod. split; [reflexivity|].
    apply find_some in Hfind. destruct Hfind as [_ Heq].
    apply ObjectId_eqb_eq in Heq. congruence.
  - exfalso. apply (find_none _ _ Hfind) in Hin.
    rewrite ObjectId_eqb_refl in Hin. discriminate.
Qed.

End Catalog.

Section Schemas.

(** X25: the validation of a Cart accepts exactly the lists of items
    whose quantities are all at least 1, keeps the items as they are, in
    order, and otherwise fails with a validation error. *)
Theorem CartSchema_accepts_iff user_id items :
  (Forall (fun item => 1 <= snd item) items ->
   CartSchema user_id items
   = Ok {| Cart.user_id := user_id;
           Cart.items :=
             map (fun item => {| CartItem.product_id := fst item;
                                 CartItem.quantity := snd item |}) items |}) /\
  (~ Forall (fun item => 1 <= snd item) items ->
   CartSchema user_id items = Raise (Uncaught "ValidationError")).
Proof.
  unfold CartSchema.
  induction items as [|[p q] rest [IHok IHbad]]; simpl.
  - split; [reflexivity|]. intros H. exfalso. apply H. constructor.
  - unfold CartItemSchema.
    destruct (Z.leb_spec 1 q) as [Hq|Hq]; simpl.
    + split.
      * intros Hall. inversion Hall; subst. specialize (IHok H2).
        destruct (CartSchema_items rest); inversion IHok; subst. reflexivity.
      * intros Hbad.
        assert (Hrest : ~ Forall (fun item => 1 <= snd item) rest).
        { intros H. apply Hbad. constructor; [exact Hq | exact H]. }
        specialize (IHbad Hrest).
        destruct (CartSchema_items rest); inversion IHbad; subst. reflexivity.
    + split; [|reflexivity].
      intros Hall. inversion Hall; subst. simpl in *. lia.
Qed.

End Schemas.

(* ------------------------------------------------------------------ *)
(** ** The further properties at concrete inputs *)

Section MoreInstances.

Import Reference.

Ltac distinct :=
  vm_compute; repeat (constructor; [simpl; intuition discriminate|]); constructor.

(** The orders of the store after the checkout of the scenario. *)
Example scenario_paid_order : order_docs Demo.paid_db = [Demo.paid_order].
Proof. vm_compute. reflexivity. Qed.

(** Alice signs up on a store without users. *)
Lemma signup_adds_user_witness :
  signup SHA256.hexdigest Demo.environ Demo.alice_up Demo.catalog
  = (Ok Demo.alice_auth, Demo.alice_db) /\
  exists user,
    user_docs Demo.alice_db = user_docs Demo.catalog ++ [user] /\
    User.name (fields user) = SignUpRequest.name Demo.alice_up /\
    User.email (fields user) = SignUpRequest.email Demo.alice_up /\
    User.password_hash (fields user)
    = hash_password SHA256.hexdigest Demo.environ
        (SignUpRequest.password Demo.alice_up) /\
    User.is_active (fields user) = true /\
    User.role (fields user) = "user" /\
    AuthResponse.user_id Demo.alice_auth = ObjectId_to_str (_id user) /\
    product_docs Demo.alice_db = product_docs Demo.catalog /\
    cart_docs Demo.alice_db = cart_docs Demo.catalog /\
    order_docs Demo.alice_db = order_docs Demo.catalog.
Proof.
  assert (H : signup SHA256.hexdigest Demo.environ Demo.alice_up Demo.catalog
              = (Ok Demo.alice_auth, Demo.alice_db)) by (vm_compute; reflexivity).
  split; [exact H|].
  exact (signup_adds_user SHA256.hexdigest Demo.environ Demo.alice_up Demo.catalog
           Demo.alice_auth Demo.alice_db H).
Defined.

(** The store after the signup of Alice: one user, one email. *)
Lemma signup_keeps_emails_unique_witness :
  emails_unique Demo.alice_db /\
  emails_unique
    (snd (signup SHA256.hexdigest Demo.environ Demo.alice_up Demo.alice_db)).
Proof.
  assert (H : emails_unique Demo.alice_db) by distinct.
  split; [exact H|].
  exact (signup_keeps_emails_unique SHA256.hexdigest Demo.environ
           Demo.alice_up Demo.alice_db H).
Defined.

(** Alice signs up, then signs in with the same credentials. *)
Lemma signup_then_signin_witness :
  signup SHA256.hexdigest Demo.environ Demo.alice_up Demo.catalog
  = (Ok Demo.alice_auth, Demo.alice_db) /\
  signin SHA256.hexdigest Demo.environ (signin_of Demo.alice_up) Demo.alice_db
  = (Ok Demo.alice_auth, Demo.alice_db).
Proof.
  assert (H : signup SHA256.hexdigest Demo.environ Demo.alice_up Demo.catalog
              = (Ok Demo.alice_auth, Demo.alice_db)) by (vm_compute; reflexivity).
  split; [exact H|].
  exact (signup_then_signin SHA256.hexdigest Demo.environ Demo.alice_up Demo.catalog
           Demo.alice_auth Demo.alice_db H).
Defined.

(** A second user adds a sticker to the store where [u1] has a cart. *)
Lemma add_to_cart_keeps_one_cart_per_user_witness :
  one_cart_per_user Demo.cart_db /\
  one_cart_per_user (snd (add_to_cart (Demo.add Demo.u2 Demo.p2 1) Demo.cart_db)).
Proof.
  assert (H : one_cart_per_user Demo.cart_db) by distinct.
  split; [exact H|].
  exact (add_to_cart_keeps_one_cart_per_user (Demo.add Demo.u2 Demo.p2 1)
           Demo.cart_db H).
Defined.

(** The cart of [u1] in [broken_db] holds the id "not-an-id". *)
Lemma get_cart_malformed_id_witness :
  ~ wellformed_ids
      [ {| CartItem.product_id := "not-an-id"; CartItem.quantity := 1 |} ] /\
  get_cart Demo.u1 Demo.broken_db
  = (Raise (HTTPException 400 "Invalid id"), Demo.broken_db).
Proof.
  assert (H : ~ wellformed_ids
                [ {| CartItem.product_id := "not-an-id"; CartItem.quantity := 1 |} ]).
  { intros Hwf. inversion Hwf as [|? ? Hhead _]; subst. apply Hhead. reflexivity. }
  split; [exact H|].
  exact (get_cart_malformed_id Demo.u1 Demo.broken_db
           {| _id := 1%N;
              fields :=
                {| Cart.user_id := Demo.u1;
                   Cart.items :=
                     [ {| CartItem.product_id := "not-an-id";
                          CartItem.quantity := 1 |} ] |} |}
           eq_refl H).
Defined.

(** [u1] adds two widgets to the catalog store and looks at the cart. *)
Lemma add_to_cart_then_get_cart_witness :
  (cart_of Demo.catalog Demo.u1 = None /\
   ObjectId_of_str Demo.u1 <> None /\
   resolve Demo.catalog Demo.p1 = Some Demo.widget_doc /\
   1 <= 2 /\
   2 < 2 ^ 63) /\
  exists db',
    add_to_cart (Demo.add Demo.u1 Demo.p1 2) Demo.catalog
    = (Ok {| OkResponse.ok := true |}, db') /\
    get_cart Demo.u1 db'
    = (Ok {| CartView.items :=
               [cart_line {| CartItem.product_id := Demo.p1; CartItem.quantity := 2 |}
                  Demo.widget_doc];
             CartView.total :=
               Float (Py.round2
                        (PrimFloat.add PrimFloat.zero
                           (PrimFloat.mul (Product.price (fields Demo.widget_doc))
                              (Py.float_of_int 2)))) |},
       db').
Proof.
  assert (H1 : cart_of Demo.catalog Demo.u1 = None) by reflexivity.
  assert (H2 : ObjectId_of_str Demo.u1 <> None) by (vm_compute; discriminate).
  assert (H3 : resolve Demo.catalog Demo.p1 = Some Demo.widget_doc)
    by (vm_compute; reflexivity).
  assert (H4 : 1 <= 2) by lia.
  assert (H5 : 2 < 2 ^ 63) by lia.
  split; [auto 6|].
  exact (add_to_cart_then_get_cart (Demo.add Demo.u1 Demo.p1 2) Demo.catalog
           Demo.widget_doc H1 H2 H3 H4 H5).
Defined.

(** [u2] adds a sticker: the cart of [u1] stays as it was. *)
Lemma add_to_cart_leaves_other_carts_witness :
  (cart_ids_unique Demo.cart_db /\ Demo.u1 <> Demo.u2) /\
  cart_of (snd (add_to_cart (Demo.add Demo.u2 Demo.p2 1) Demo.cart_db)) Demo.u1
  = cart_of Demo.cart_db Demo.u1 /\
  user_docs (snd (add_to_cart (Demo.add Demo.u2 Demo.p2 1) Demo.cart_db))
  = user_docs Demo.cart_db /\
  product_docs (snd (add_to_cart (Demo.add Demo.u2 Demo.p2 1) Demo.cart_db))
  = product_docs Demo.cart_db /\
  order_docs (snd (add_to_cart (Demo.add Demo.u2 Demo.p2 1) Demo.cart_db))
  = order_docs Demo.cart_db.
Proof.
  assert (H1 : cart_ids_unique Demo.cart_db) by distinct.
  assert (H2 : Demo.u1 <> Demo.u2) by discriminate.
  split; [auto|].
  exact (add_to_cart_leaves_other_carts (Demo.add Demo.u2 Demo.p2 1) Demo.cart_db
           Demo.u1 H1 H2).
Defined.

Lemma add_to_cart_keeps_keys_unique_witness :
  cart_ids_unique Demo.cart_db /\
  cart_ids_unique (snd (add_to_cart (Demo.add Demo.u2 Demo.p2 1) Demo.cart_db)).
Proof.
  assert (H : cart_ids_unique Demo.cart_db) by distinct.
  split; [exact H|].
  exact (add_to_cart_keeps_keys_unique (Demo.add Demo.u2 Demo.p2 1) Demo.cart_db H).
Defined.

(** A request for 2^63 widgets, one more than the store can hold. *)
Lemma add_to_cart_failure_witness :
  add_to_cart (Demo.add Demo.u1 Demo.p1 (2 ^ 63)) Demo.catalog
  = (Raise (Uncaught "OverflowError"), Demo.catalog) /\
  Demo.catalog = Demo.catalog /\
  (Uncaught "OverflowError" = HTTPException 400 "Invalid id" \/
   Uncaught "OverflowError" = HTTPException 404 "Product not found" \/
   (Uncaught "OverflowError" = Uncaught "ValidationError" /\
    AddToCartRequest.quantity (Demo.add Demo.u1 Demo.p1 (2 ^ 63)) < 1 /\
    cart_of Demo.catalog
      (AddToCartRequest.user_id (Demo.add Demo.u1 Demo.p1 (2 ^ 63))) = None) \/
   (Uncaught "OverflowError" = Uncaught "OverflowError" /\
    items_int64
      (add_item
         (items_of Demo.catalog
            (AddToCartRequest.user_id (Demo.add Demo.u1 Demo.p1 (2 ^ 63))))
         (Demo.add Demo.u1 Demo.p1 (2 ^ 63)))
    = false)).
Proof.
  assert (H : add_to_cart (Demo.add Demo.u1 Demo.p1 (2 ^ 63)) Demo.catalog
              = (Raise (Uncaught "OverflowError"), Demo.catalog))
    by (vm_compute; reflexivity).
  split; [exact H|].
  exact (add_to_cart_failure (Demo.add Demo.u1 Demo.p1 (2 ^ 63)) Demo.catalog
           (Uncaught "OverflowError") Demo.catalog H).
Defined.

(** A checkout on a cart with a product that is gone. *)
Lemma checkout_failure_witness :
  checkout Demo.random Demo.checkout_u1 Demo.stale_db
  = (Raise (HTTPException 400 "Invalid product in cart"), Demo.stale_db) /\
  Demo.stale_db = Demo.stale_db /\
  status_code_of (HTTPException 400 "Invalid product in cart") = 400 /\
  (HTTPException 400 "Invalid product in cart" = HTTPException 400 "Cart is empty" \/
   HTTPException 400 "Invalid product in cart" = HTTPException 400 "Invalid id" \/
   HTTPException 400 "Invalid product in cart"
   = HTTPException 400 "Invalid product in cart").
Proof.
  assert (H : checkout Demo.random Demo.checkout_u1 Demo.stale_db
              = (Raise (HTTPException 400 "Invalid product in cart"), Demo.stale_db))
    by (vm_compute; reflexivity).
  split; [exact H|].
  exact (checkout_failure Demo.random Demo.checkout_u1 Demo.stale_db
           (HTTPException 400 "Invalid product in cart") Demo.stale_db H).
Defined.

(** The order of the scenario: five widgets for [u1]. *)
Lemma checkout_order_snapshot_witness :
  checkout Demo.random Demo.checkout_u1 Demo.cart_db
  = (Ok Demo.receipt, Demo.paid_db) /\
  exists cart order,
    cart_of Demo.cart_db (CheckoutRequest.user_id Demo.checkout_u1) = Some cart /\
    order_docs Demo.paid_db = order_docs Demo.cart_db ++ [order] /\
    Order.user_id (fields order) = CheckoutRequest.user_id Demo.checkout_u1 /\
    Order.currency (fields order) = "usd" /\
    CheckoutResponse.order_id Demo.receipt = ObjectId_to_str (_id order) /\
    CheckoutResponse.payment_ref Demo.receipt = payment_ref_of Demo.random /\
    Order.payment_ref (fields order) = Some (payment_ref_of Demo.random) /\
    Forall2 (fun item oi =>
               exists prod,
                 resolve Demo.cart_db (CartItem.product_id item) = Some prod /\
                 oi = order_item item prod)
      (Cart.items (fields cart)) (Order.items (fields order)).
Proof.
  assert (H : checkout Demo.random Demo.checkout_u1 Demo.cart_db
              = (Ok Demo.receipt, Demo.paid_db)) by (vm_compute; reflexivity).
  split; [exact H|].
  exact (checkout_order_snapshot Demo.random Demo.checkout_u1 Demo.cart_db
           Demo.receipt Demo.paid_db H).
Defined.

(** The cart view before the checkout of the scenario shows its amount. *)
Lemma checkout_charges_cart_total_witness :
  checkout Demo.random Demo.checkout_u1 Demo.cart_db
  = (Ok Demo.receipt, Demo.paid_db) /\
  exists cart view,
    cart_of Demo.cart_db (CheckoutRequest.user_id Demo.checkout_u1) = Some cart /\
    get_cart (CheckoutRequest.user_id Demo.checkout_u1) Demo.cart_db
    = (Ok view, Demo.cart_db) /\
    CartView.total view = Float (CheckoutResponse.amount Demo.receipt) /\
    List.length (CartView.items view) = List.length (Cart.items (fields cart)).
Proof.
  assert (H : checkout Demo.random Demo.checkout_u1 Demo.cart_db
              = (Ok Demo.receipt, Demo.paid_db)) by (vm_compute; reflexivity).
  split; [exact H|].
  exact (checkout_charges_cart_total Demo.random Demo.checkout_u1 Demo.cart_db
           Demo.receipt Demo.paid_db H).
Defined.

(** A second checkout on the store that the first one left. *)
Lemma checkout_keeps_store_invariants_witness :
  (cart_ids_unique Demo.paid_db /\
   order_ids_unique Demo.paid_db /\
   one_cart_per_user Demo.paid_db) /\
  cart_ids_unique (snd (checkout Demo.random Demo.checkout_u1 Demo.paid_db)) /\
  order_ids_unique (snd (checkout Demo.random Demo.checkout_u1 Demo.paid_db)) /\
  one_cart_per_user (snd (checkout Demo.random Demo.checkout_u1 Demo.paid_db)).
Proof.
  assert (H1 : cart_ids_unique Demo.paid_db) by distinct.
  assert (H2 : order_ids_unique Demo.paid_db) by distinct.
  assert (H3 : one_cart_per_user Demo.paid_db) by distinct.
  split; [auto|].
  exact (checkout_keeps_store_invariants Demo.random Demo.checkout_u1 Demo.paid_db
           H1 H2 H3).
Defined.

Lemma payment_ref_injective_witness :
  payment_ref_of Demo.random = "PAY-019FC43B" /\
  payment_ref_of Demo.random = payment_ref_of Demo.random /\
  Demo.random = Demo.random.
Proof.
  assert (H : payment_ref_of Demo.random = payment_ref_of Demo.random)
    by reflexivity.
  split; [reflexivity|]. split; [exact H|].
  exact (payment_ref_injective Demo.random Demo.random H).
Defined.

(** A product added to the catalog of the examples. *)
Lemma create_product_resolves_witness :
  ObjectId_of_str (ObjectId_to_str (ObjectId_new (map _id (product_docs Demo.catalog))))
  = Some (ObjectId_new (map _id (product_docs Demo.catalog))) /\
  exists r db',
    create_product Demo.sticker Demo.catalog = (Ok r, db') /\
    resolve db' (IdResponse.id r)
    = Some {| _id := ObjectId_new (map _id (product_docs Demo.catalog));
              fields := Demo.sticker |} /\
    (forall product_id prod,
       resolve Demo.catalog product_id = Some prod ->
       resolve db' product_id = Some prod) /\
    user_docs db' = user_docs Demo.catalog /\
    cart_docs db' = cart_docs Demo.catalog /\
    order_docs db' = order_docs Demo.catalog.
Proof.
  assert (H : ObjectId_of_str
                (ObjectId_to_str (ObjectId_new (map _id (product_docs Demo.catalog))))
              = Some (ObjectId_new (map _id (product_docs Demo.catalog))))
    by (vm_compute; reflexivity).
  split; [exact H|].
  exact (create_product_resolves Demo.sticker Demo.catalog H).
Defined.

(** The first product that [list_products] returns on the catalog. *)
Lemma list_products_ids_resolve_witness :
  (Forall (fun d => ObjectId_of_str (ObjectId_to_str (_id d)) = Some (_id d))
     (product_docs Demo.catalog) /\
   list_products Demo.catalog = (Ok Demo.listing, Demo.catalog) /\
   In (Some {| Serialized.id := Demo.p1; Serialized.doc := Demo.widget |})
     Demo.listing) /\
  exists prod,
    resolve Demo.catalog Demo.p1 = Some prod /\
    ObjectId_to_str (_id prod) = Demo.p1.
Proof.
  assert (H1 : Forall (fun d => ObjectId_of_str (ObjectId_to_str (_id d)) = Some (_id d))
                 (product_docs Demo.catalog))
    by (repeat constructor).
  assert (H2 : list_products Demo.catalog = (Ok Demo.listing, Demo.catalog))
    by (vm_compute; reflexivity).
  assert (H3 : In (Some {| Serialized.id := Demo.p1; Serialized.doc := Demo.widget |})
                 Demo.listing) by (left; reflexivity).
  split; [auto|].
  exact (list_products_ids_resolve Demo.catalog Demo.listing
           {| Serialized.id := Demo.p1; Serialized.doc := Demo.widget |} H1 H2 H3).
Defined.

End MoreInstances.
